(** * News RAG chatbot proxy: a shallow embedding of [app/minimal.py]

    The proxy is a FastAPI application with five handlers.  Three of them
    touch a Redis list per session ([chat_history:<session id>]) and one of
    them forwards the query to an external generation service over HTTP.

    The embedding keeps the shape of the Python code:
    - JSON values are the Python values [json.loads] produces;
    - Python exceptions are values of [exn], raised and caught in a small
      state-and-exception monad [M];
    - Redis is a finite map from keys to lists with an optional expiry
      instant, read through lazy expiration, together with a clock;
    - the generation service is an oracle from the outbound request to what
      [httpx] observes (a reply, or a transport failure);
    - every store command and every outbound call is also recorded, in
      program order, in a log, so that ordering properties can be stated.

    The clock does not move while one handler runs; [elapse] moves it between
    requests.  Store commands themselves are assumed to go through (the store
    is reachable). *)

From Stdlib Require Import ZArith Ascii String.
From stdpp Require Import gmap strings list fin_maps pretty.

Set Warnings "-register-all".

Open Scope string_scope.
Open Scope list_scope.
Open Scope Z_scope.

(** ** Python values and exceptions *)

(** The values [json.loads] can return.  A float is kept as the text
    [json.dumps] writes for it: no handler looks inside one. *)
Inductive json : Type :=
| JNull
| JBool (b : bool)
| JInt (n : Z)
| JFloat (repr : string)
| JStr (s : string)
| JList (l : list json)
| JDict (d : list (string * json)).

(** The exceptions the handlers can meet.  All of them derive from Python's
    [Exception], [HTTPException] included. *)
Inductive exn : Type :=
| HTTPException (status_code : Z) (detail : string)
| AttributeError (msg : string)
| JSONDecodeError (msg : string)
| TransportError (msg : string).

(** [str(e)].  Starlette's [HTTPException.__str__] is
    [f"{self.status_code}: {self.detail}"]; the others print their message. *)
Definition str_exn (e : exn) : string :=
  match e with
  | HTTPException status_code detail => pretty status_code +:+ ": " +:+ detail
  | AttributeError msg => msg
  | JSONDecodeError msg => msg
  | TransportError msg => msg
  end.

Inductive result (A : Type) : Type :=
| Ok (a : A)
| Raise (e : exn).
Arguments Ok {A} a.
Arguments Raise {A} e.

(** [type(v).__name__], as it appears in an [AttributeError] message. *)
Definition type_name (v : json) : string :=
  match v with
  | JNull => "NoneType"
  | JBool _ => "bool"
  | JInt _ => "int"
  | JFloat _ => "float"
  | JStr _ => "str"
  | JList _ => "list"
  | JDict _ => "dict"
  end.

(** Lookup in a Python dict kept as its items in insertion order. *)
Fixpoint dict_lookup (d : list (string * json)) (k : string) : option json :=
  match d with
  | [] => None
  | (k', v) :: d' => if String.eqb k' k then Some v else dict_lookup d' k
  end.

(** [v.get(k, default)]: defined on dicts only; on any other value the
    attribute lookup itself fails. *)
Definition py_get (v : json) (k : string) (default : json) : result json :=
  match v with
  | JDict d => Ok (match dict_lookup d k with Some x => x | None => default end)
  | _ => Raise (AttributeError
                  ("'" +:+ type_name v +:+ "' object has no attribute 'get'"))
  end.

(** Truthiness of an [Optional[str]]: [None] and the empty string are
    falsy. *)
Definition truthy (o : option string) : bool :=
  match o with
  | None => false
  | Some s => negb (String.eqb s "")
  end.

(** [f"{x}"] of an [Optional[str]] read from the environment. *)
Definition fmt_opt (o : option string) : string :=
  match o with
  | None => "None"
  | Some s => s
  end.

(** The [json] module: [dumps] is total on values built from [loads]
    results and string literals; [loads] either returns a value or raises
    [JSONDecodeError] with a message. *)
Class JsonLib : Type := {
  json_dumps : json -> string;
  json_loads : string -> string + json
}.

(** ** The Redis list store *)

Module Redis.

(** A list key: its items and, when a TTL is set, the instant at which the
    key expires. *)
Record rlist : Type := { items : list string; expires_at : option Z }.

Definition expired (now : Z) (e : rlist) : bool :=
  match expires_at e with
  | Some t => t <=? now
  | None => false
  end.

(** What a command sees at [key]: an expired key is absent. *)
Definition live (now : Z) (db : gmap string rlist) (key : string)
  : option rlist :=
  match db !! key with
  | Some e => if expired now e then None else Some e
  | None => None
  end.

(** RPUSH: create the list when the key is absent; an existing key keeps
    its TTL. *)
Definition rpush (now : Z) (key item : string) (db : gmap string rlist)
  : gmap string rlist :=
  match live now db key with
  | Some e => <[key := {| items := items e ++ [item];
                          expires_at := expires_at e |}]> db
  | None => <[key := {| items := [item]; expires_at := None |}]> db
  end.

(** EXPIRE: set the TTL of an existing key, do nothing on an absent one. *)
Definition expire (now : Z) (key : string) (seconds : Z)
           (db : gmap string rlist) : gmap string rlist :=
  match live now db key with
  | Some e => <[key := {| items := items e;
                          expires_at := Some (now + seconds) |}]> db
  | None => db
  end.

(** LRANGE on the items of a list, with Redis' index normalisation:
    negative indices count from the end and the range is clamped. *)
Definition range (l : list string) (start stop : Z) : list string :=
  let llen := Z.of_nat (length l) in
  let start := if start <? 0 then llen + start else start in
  let stop := if stop <? 0 then llen + stop else stop in
  let start := if start <? 0 then 0 else start in
  if (stop <? start) || (llen <=? start) then []
  else
    let stop := if llen <=? stop then llen - 1 else stop in
    take (Z.to_nat (stop - start + 1)) (drop (Z.to_nat start) l).

Definition lrange (now : Z) (key : string) (start stop : Z)
           (db : gmap string rlist) : list string :=
  match live now db key with
  | Some e => range (items e) start stop
  | None => []
  end.

(** DEL: removing an absent key is not an error. *)
Definition del (key : string) (db : gmap string rlist)
  : gmap string rlist :=
  delete key db.

(** The remaining TTL a client would read, if one is set. *)
Definition ttl (now : Z) (key : string) (db : gmap string rlist)
  : option Z :=
  match live now db key with
  | Some e => match expires_at e with
              | Some t => Some (t - now)
              | None => None
              end
  | None => None
  end.

End Redis.

(** ** The outside world of a handler *)

(** The outbound POST of [/chat]. *)
Record outbound : Type := {
  url : string;
  payload : json;
  authorization : string;
  timeout : Z
}.

(** What [client.post] observes: a response with a status and a body, or an
    [httpx] exception (connection refused, timeout, bad URL, ...). *)
Inductive reply : Type :=
| Replied (status_code : Z) (text : string)
| Failed (description : string).

Inductive event : Type :=
| EvRpush (key item : string)
| EvExpire (key : string) (seconds : Z)
| EvLrange (key : string) (start stop : Z)
| EvDelete (key : string)
| EvPost (req : outbound).

Record world : Type := {
  redis : gmap string Redis.rlist;
  now : Z;
  log : list event
}.

(** Module-level configuration: the two environment variables and the
    service behind [ML_SERVICE_URL]. *)
Record env : Type := {
  ML_SERVICE_URL : option string;
  ML_SERVICE_API_KEY : option string;
  upstream : outbound -> reply
}.

(** An inbound [/chat] request: the [X-Session-Id] header, if any, and the
    raw body. *)
Record request : Type := {
  x_session_id : option string;
  body_text : string
}.

(** ** The handler monad: state, log and exceptions *)

Definition M (A : Type) : Type := world -> result A * world.

Definition ret {A} (a : A) : M A := fun w => (Ok a, w).

Definition bind {A B} (m : M A) (k : A -> M B) : M B :=
  fun w =>
    match m w with
    | (Ok a, w') => k a w'
    | (Raise e, w') => (Raise e, w')
    end.

Definition raise {A} (e : exn) : M A := fun w => (Raise e, w).

(** [try: m  except Exception as e: h e]: effects of [m] up to the raise
    point are kept. *)
Definition try_except {A} (m : M A) (h : exn -> M A) : M A :=
  fun w =>
    match m w with
    | (Ok a, w') => (Ok a, w')
    | (Raise e, w') => h e w'
    end.

Definition lift {A} (r : result A) : M A := fun w => (r, w).

Declare Scope handler_scope.
Delimit Scope handler_scope with handler.
Notation "x <- m ;; k" := (bind m (fun x => k))
  (at level 100, m at next level, right associativity) : handler_scope.
Notation "m ;;; k" := (bind m (fun _ => k))
  (at level 100, right associativity) : handler_scope.
Open Scope handler_scope.

Definition emit (ev : event) (w : world) : world :=
  {| redis := redis w; now := now w; log := log w ++ [ev] |}.

Definition on_redis (f : Z -> gmap string Redis.rlist -> gmap string Redis.rlist)
           (w : world) : world :=
  {| redis := f (now w) (redis w); now := now w; log := log w |}.

(** Time passing between two requests. *)
Definition elapse (dt : Z) (w : world) : world :=
  {| redis := redis w; now := now w + dt; log := log w |}.

(** The session transcript as the store shows it now. *)
Definition transcript (w : world) (key : string) : list string :=
  Redis.lrange (now w) key 0 (-1) (redis w).

(** *** [redis_client] commands

    Each command is logged, then applied to the store. *)

Definition do_rpush (key item : string) (w : world) : world :=
  on_redis (fun t => Redis.rpush t key item) (emit (EvRpush key item) w).

Definition do_expire (key : string) (seconds : Z) (w : world) : world :=
  on_redis (fun t => Redis.expire t key seconds) (emit (EvExpire key seconds) w).

Definition do_delete (key : string) (w : world) : world :=
  on_redis (fun _ => Redis.del key) (emit (EvDelete key) w).

Definition redis_client_rpush (key item : string) : M unit :=
  fun w => (Ok tt, do_rpush key item w).

Definition redis_client_expire (key : string) (seconds : Z) : M unit :=
  fun w => (Ok tt, do_expire key seconds w).

Definition redis_client_lrange (key : string) (start stop : Z)
  : M (list string) :=
  fun w => (Ok (Redis.lrange (now w) key start stop (redis w)),
            emit (EvLrange key start stop) w).

Definition redis_client_delete (key : string) : M unit :=
  fun w => (Ok tt, do_delete key w).

(** ** The handlers *)

Section Handlers.

Context `{JsonLib} (E : env).

(** [json.loads] as a handler step. *)
Definition loads (s : string) : M json :=
  match json_loads s with
  | inr v => ret v
  | inl msg => raise (JSONDecodeError msg)
  end.

(** [await request.json()]. *)
Definition request_json (req : request) : M json := loads (body_text req).

(** [await client.post(url, json=..., headers=...)]: the call is logged,
    then the service decides what comes back. *)
Definition client_post (o : outbound) : M (Z * string) :=
  fun w =>
    match upstream E o with
    | Replied status_code text => (Ok (status_code, text), emit (EvPost o) w)
    | Failed description =>
        (Raise (TransportError description), emit (EvPost o) w)
    end.

Definition entry (role : string) (content : json) : json :=
  JDict [("role", JStr role); ("content", content)].

Definition history_key (session_id : string) : string :=
  "chat_history:" +:+ session_id.

(** [GET /health] *)
Definition health_check : M json :=
  ret (JDict [("status", JStr "ok");
              ("message", JStr "Proxy API is running")]).

(** [POST /session/new]; [uuid] is the text of the [uuid.uuid4()] drawn for
    this call. *)
Definition create_new_session (uuid : string) : M json :=
  ret (JDict [("session_id", JStr uuid);
              ("message", JStr "New session created.")]).

(** The POST that [/chat] sends to the generation service. *)
Definition generate_request (x_session_id : string) (query : json)
  : outbound :=
  {| url := fmt_opt (ML_SERVICE_URL E) +:+ "/generate";
     payload := JDict [("query", query); ("session_id", JStr x_session_id)];
     authorization := "Bearer " +:+ fmt_opt (ML_SERVICE_API_KEY E);
     timeout := 60 |}.

(** The [try] block of [proxy_chat]. *)
Definition forward (x_session_id key : string) (body : json) : M json :=
  query <- lift (py_get body "query" (JStr "")) ;;
  response <- client_post (generate_request x_session_id query) ;;
  if negb (fst response =? 200)
  then raise (HTTPException (fst response) "ML service error")
  else
    result <- loads (snd response) ;;
    content <- lift (py_get result "response" (JStr "")) ;;
    redis_client_rpush key (json_dumps (entry "assistant" content)) ;;;
    redis_client_expire key 3600 ;;;
    ret result.

(** [POST /chat] *)
Definition proxy_chat (req : request) : M json :=
  if negb (truthy (x_session_id req))
  then raise (HTTPException 400 "X-Session-Id header is required")
  else
    let x_session_id := fmt_opt (x_session_id req) in
    body <- request_json req ;;
    let key := history_key x_session_id in
    query <- lift (py_get body "query" (JStr "")) ;;
    redis_client_rpush key (json_dumps (entry "user" query)) ;;;
    try_except
      (forward x_session_id key body)
      (fun e =>
         raise (HTTPException 500
                  ("Error communicating with ML service: " +:+ str_exn e))).

(** The list comprehension of [get_session_history]. *)
Fixpoint loads_all (l : list string) : M (list json) :=
  match l with
  | [] => ret []
  | item_json :: l' =>
      v <- loads item_json ;;
      vs <- loads_all l' ;;
      ret (v :: vs)
  end.

(** [GET /chat/history/{session_id}] *)
Definition get_session_history (session_id : string) : M json :=
  let key := history_key session_id in
  history_json_list <- redis_client_lrange key 0 (-1) ;;
  history <- loads_all history_json_list ;;
  ret (JDict [("session_id", JStr session_id);
              ("history", JList history)]).

(** [POST /chat/session/{session_id}/clear] *)
Definition clear_session_history (session_id : string) : M json :=
  let key := history_key session_id in
  redis_client_delete key ;;;
  ret (JDict [("session_id", JStr session_id);
              ("message", JStr "Chat history cleared successfully.")]).

End Handlers.

(** The status line FastAPI sends for a handler outcome: 200 for a returned
    value, the exception's own code for an [HTTPException], and 500 for any
    other exception that escapes the handler. *)
Definition http_status {A} (r : result A) : Z :=
  match r with
  | Ok _ => 200
  | Raise (HTTPException status_code _) => status_code
  | Raise _ => 500
  end.

(** ** A reference instance of the [json] module

    An executable encoder and decoder for the fragment the worked scenarios
    need: [null], booleans, integers, strings with the short escapes, lists
    and objects.  Float literals and [\u] escapes are rejected by this
    decoder.  The output format of [dumps] is Python's default one
    (separators [", "] and [": "]).  Nothing proved about the handlers
    depends on this instance: the theorems hold for every [JsonLib]. *)

Module RefJson.

Definition dquote : ascii := "034"%char.
Definition backslash : ascii := "092"%char.

Definition escape_char (c : ascii) : string :=
  if Ascii.eqb c dquote then String backslash (String dquote EmptyString)
  else if Ascii.eqb c backslash then String backslash (String backslash EmptyString)
  else if Ascii.eqb c "010"%char then String backslash "n"
  else if Ascii.eqb c "013"%char then String backslash "r"
  else if Ascii.eqb c "009"%char then String backslash "t"
  else String c EmptyString.

Fixpoint escape (s : string) : string :=
  match s with
  | EmptyString => EmptyString
  | String c s' => escape_char c +:+ escape s'
  end.

Definition quoted (s : string) : string :=
  String dquote (escape s +:+ String dquote EmptyString).

Fixpoint dumps (v : json) : string :=
  match v with
  | JNull => "null"
  | JBool true => "true"
  | JBool false => "false"
  | JInt n => pretty n
  | JFloat repr => repr
  | JStr s => quoted s
  | JList l =>
      "[" +:+
      (fix go (l : list json) : string :=
         match l with
         | [] => EmptyString
         | [x] => dumps x
         | x :: l' => dumps x +:+ ", " +:+ go l'
         end) l +:+ "]"
  | JDict d =>
      "{" +:+
      (fix go (d : list (string * json)) : string :=
         match d with
         | [] => EmptyString
         | [(k, x)] => quoted k +:+ ": " +:+ dumps x
         | (k, x) :: d' => quoted k +:+ ": " +:+ dumps x +:+ ", " +:+ go d'
         end) d +:+ "}"
  end.

Definition is_ws (c : ascii) : bool :=
  Ascii.eqb c " "%char || Ascii.eqb c "009"%char
  || Ascii.eqb c "010"%char || Ascii.eqb c "013"%char.

Fixpoint skip_ws (s : string) : string :=
  match s with
  | String c s' => if is_ws c then skip_ws s' else s
  | EmptyString => s
  end.

Definition unescape (c : ascii) : option ascii :=
  if Ascii.eqb c dquote then Some dquote
  else if Ascii.eqb c backslash then Some backslash
  else if Ascii.eqb c "/"%char then Some "/"%char
  else if Ascii.eqb c "n"%char then Some "010"%char
  else if Ascii.eqb c "r"%char then Some "013"%char
  else if Ascii.eqb c "t"%char then Some "009"%char
  else if Ascii.eqb c "b"%char then Some "008"%char
  else if Ascii.eqb c "f"%char then Some "012"%char
  else None.

(** The rest of a string literal, after its opening quote. *)
Fixpoint lex_string (s : string) : option (string * string) :=
  match s with
  | EmptyString => None
  | String c r =>
      if Ascii.eqb c dquote then Some (EmptyString, r)
      else if Ascii.eqb c backslash then
        match r with
        | String e r' =>
            match unescape e, lex_string r' with
            | Some x, Some (t, rest) => Some (String x t, rest)
            | _, _ => None
            end
        | EmptyString => None
        end
      else if (nat_of_ascii c <? 32)%nat then None
      else
        match lex_string r with
        | Some (t, rest) => Some (String c t, rest)
        | None => None
        end
  end.

Definition digit (c : ascii) : option Z :=
  let n := nat_of_ascii c in
  if ((48 <=? n) && (n <=? 57))%nat then Some (Z.of_nat n - 48) else None.

Fixpoint lex_digits (s : string) (acc : Z) : Z * string :=
  match s with
  | String c r =>
      match digit c with
      | Some d => lex_digits r (10 * acc + d)
      | None => (acc, s)
      end
  | EmptyString => (acc, s)
  end.

(** An integer literal: [0], or a nonzero digit followed by digits; a
    fraction or an exponent after it makes the literal a float. *)
Definition lex_nat (s : string) : option (Z * string) :=
  match s with
  | String c r =>
      match digit c with
      | Some 0 => Some (0, r)
      | Some d => Some (lex_digits r d)
      | None => None
      end
  | EmptyString => None
  end.

Definition starts_float (s : string) : bool :=
  match s with
  | String c _ =>
      Ascii.eqb c "."%char || Ascii.eqb c "e"%char || Ascii.eqb c "E"%char
  | EmptyString => false
  end.

Definition lex_int (s : string) : option (Z * string) :=
  let signed :=
    match s with
    | String "-"%char r =>
        match lex_nat r with
        | Some (n, rest) => Some (- n, rest)
        | None => None
        end
    | _ => lex_nat s
    end in
  match signed with
  | Some (n, rest) => if starts_float rest then None else Some (n, rest)
  | None => None
  end.

Definition strip_prefix (p s : string) : option string :=
  if String.prefix p s
  then Some (String.substring (String.length p)
                              (String.length s - String.length p) s)
  else None.

(** Assignment in a dict: a repeated key keeps its place and takes the
    last value. *)
Fixpoint dict_set (d : list (string * json)) (k : string) (v : json)
  : list (string * json) :=
  match d with
  | [] => [(k, v)]
  | (k', v') :: d' =>
      if String.eqb k' k then (k', v) :: d' else (k', v') :: dict_set d' k v
  end.

Definition starts (c : ascii) (s : string) : option string :=
  match s with
  | String c' r => if Ascii.eqb c' c then Some r else None
  | EmptyString => None
  end.

(** Recursive descent; [fuel] bounds the nesting of calls. *)
Fixpoint parse_value (fuel : nat) (s : string) : option (json * string) :=
  match fuel with
  | O => None
  | S fuel' =>
      let s := skip_ws s in
      match s with
      | EmptyString => None
      | String c r =>
          if Ascii.eqb c dquote then
            match lex_string r with
            | Some (t, rest) => Some (JStr t, rest)
            | None => None
            end
          else if Ascii.eqb c "["%char then
            match starts "]"%char (skip_ws r) with
            | Some rest => Some (JList [], rest)
            | None =>
                match parse_elements fuel' r with
                | Some (l, rest) => Some (JList l, rest)
                | None => None
                end
            end
          else if Ascii.eqb c "{"%char then
            match starts "}"%char (skip_ws r) with
            | Some rest => Some (JDict [], rest)
            | None =>
                match parse_members fuel' r [] with
                | Some (d, rest) => Some (JDict d, rest)
                | None => None
                end
            end
          else
            match strip_prefix "null" s, strip_prefix "true" s,
                  strip_prefix "false" s with
            | Some rest, _, _ => Some (JNull, rest)
            | _, Some rest, _ => Some (JBool true, rest)
            | _, _, Some rest => Some (JBool false, rest)
            | _, _, _ =>
                match lex_int s with
                | Some (n, rest) => Some (JInt n, rest)
                | None => None
                end
            end
      end
  end
with parse_elements (fuel : nat) (s : string)
  : option (list json * string) :=
  match fuel with
  | O => None
  | S fuel' =>
      match parse_value fuel' s with
      | Some (v, r) =>
          let r := skip_ws r in
          match starts ","%char r, starts "]"%char r with
          | Some r', _ =>
              match parse_elements fuel' r' with
              | Some (l, rest) => Some (v :: l, rest)
              | None => None
              end
          | None, Some rest => Some ([v], rest)
          | None, None => None
          end
      | None => None
      end
  end
with parse_members (fuel : nat) (s : string) (acc : list (string * json))
  : option (list (string * json) * string) :=
  match fuel with
  | O => None
  | S fuel' =>
      match starts dquote (skip_ws s) with
      | Some r =>
          match lex_string r with
          | Some (k, r1) =>
              match starts ":"%char (skip_ws r1) with
              | Some r2 =>
                  match parse_value fuel' r2 with
                  | Some (v, r3) =>
                      let acc := dict_set acc k v in
                      let r3 := skip_ws r3 in
                      match starts ","%char r3, starts "}"%char r3 with
                      | Some r4, _ => parse_members fuel' r4 acc
                      | None, Some rest => Some (acc, rest)
                      | None, None => None
                      end
                  | None => None
                  end
              | None => None
              end
          | None => None
          end
      | None => None
      end
  end.

Definition loads (s : string) : string + json :=
  match parse_value (2 * String.length s + 2) s with
  | Some (v, rest) =>
      match skip_ws rest with
      | EmptyString => inr v
      | String _ _ => inl "Extra data"
      end
  | None => inl "Expecting value"
  end.

Definition lib : JsonLib :=
  {| json_dumps := dumps; json_loads := loads |}.

End RefJson.

(** ** The outcomes of [/chat] *)

(** Every way a [/chat] request can end, with the world it leaves behind.
    One constructor per exit of [proxy_chat], in program order. *)
Inductive chat_outcome `{JsonLib} (E : env) (req : request) (w : world)
  : result json -> world -> Prop :=
| chat_no_session :
    truthy (x_session_id req) = false ->
    chat_outcome E req w
      (Raise (HTTPException 400 "X-Session-Id header is required")) w
| chat_bad_body sid msg :
    x_session_id req = Some sid -> sid <> EmptyString ->
    json_loads (body_text req) = inl msg ->
    chat_outcome E req w (Raise (JSONDecodeError msg)) w
| chat_body_not_dict sid body e :
    x_session_id req = Some sid -> sid <> EmptyString ->
    json_loads (body_text req) = inr body ->
    py_get body "query" (JStr "") = Raise e ->
    chat_outcome E req w (Raise e) w
| chat_unreachable sid body query description :
    x_session_id req = Some sid -> sid <> EmptyString ->
    json_loads (body_text req) = inr body ->
    py_get body "query" (JStr "") = Ok query ->
    upstream E (generate_request E sid query) = Failed description ->
    chat_outcome E req w
      (Raise (HTTPException 500
                ("Error communicating with ML service: " +:+ description)))
      (emit (EvPost (generate_request E sid query))
         (do_rpush (history_key sid) (json_dumps (entry "user" query)) w))
| chat_upstream_status sid body query status_code text :
    x_session_id req = Some sid -> sid <> EmptyString ->
    json_loads (body_text req) = inr body ->
    py_get body "query" (JStr "") = Ok query ->
    upstream E (generate_request E sid query) = Replied status_code text ->
    status_code <> 200 ->
    chat_outcome E req w
      (Raise (HTTPException 500
                ("Error communicating with ML service: " +:+
                 str_exn (HTTPException status_code "ML service error"))))
      (emit (EvPost (generate_request E sid query))
         (do_rpush (history_key sid) (json_dumps (entry "user" query)) w))
| chat_reply_not_json sid body query text msg :
    x_session_id req = Some sid -> sid <> EmptyString ->
    json_loads (body_text req) = inr body ->
    py_get body "query" (JStr "") = Ok query ->
    upstream E (generate_request E sid query) = Replied 200 text ->
    json_loads text = inl msg ->
    chat_outcome E req w
      (Raise (HTTPException 500
                ("Error communicating with ML service: " +:+ msg)))
      (emit (EvPost (generate_request E sid query))
         (do_rpush (history_key sid) (json_dumps (entry "user" query)) w))
| chat_reply_not_dict sid body query text result e :
    x_session_id req = Some sid -> sid <> EmptyString ->
    json_loads (body_text req) = inr body ->
    py_get body "query" (JStr "") = Ok query ->
    upstream E (generate_request E sid query) = Replied 200 text ->
    json_loads text = inr result ->
    py_get result "response" (JStr "") = Raise e ->
    chat_outcome E req w
      (Raise (HTTPException 500
                ("Error communicating with ML service: " +:+ str_exn e)))
      (emit (EvPost (generate_request E sid query))
         (do_rpush (history_key sid) (json_dumps (entry "user" query)) w))
| chat_answered sid body query text result content :
    x_session_id req = Some sid -> sid <> EmptyString ->
    json_loads (body_text req) = inr body ->
    py_get body "query" (JStr "") = Ok query ->
    upstream E (generate_request E sid query) = Replied 200 text ->
    json_loads text = inr result ->
    py_get result "response" (JStr "") = Ok content ->
    chat_outcome E req w (Ok result)
      (do_expire (history_key sid) 3600
         (do_rpush (history_key sid) (json_dumps (entry "assistant" content))
            (emit (EvPost (generate_request E sid query))
               (do_rpush (history_key sid)
                  (json_dumps (entry "user" query)) w)))).

(** ** Concrete scenarios

    A store, requests and services to run the handlers on, all built with
    the reference [json] instance. *)

Module Scenario.

Definition fresh : world := {| redis := ∅; now := 0; log := [] |}.

Definition hello : string := RefJson.dumps (JDict [("query", JStr "hello")]).

Definition chat (header : option string) : request :=
  {| x_session_id := header; body_text := hello |}.

(** A service that gives the same reply to every call. *)
Definition service (r : reply) : env :=
  {| ML_SERVICE_URL := Some "http://ml.example";
     ML_SERVICE_API_KEY := Some "secret";
     upstream := fun _ => r |}.

Definition hi_there : string :=
  RefJson.dumps (JDict [("response", JStr "hi there")]).

Definition user_hello : string :=
  RefJson.dumps (JDict [("role", JStr "user"); ("content", JStr "hello")]).

Definition assistant_hi : string :=
  RefJson.dumps
    (JDict [("role", JStr "assistant"); ("content", JStr "hi there")]).

(** A store in which session [S] already has one completed turn whose TTL
    runs until instant 3600. *)
Definition used : world :=
  {| redis := {[ "chat_history:S" :=
                   {| Redis.items := [user_hello; assistant_hi];
                      Redis.expires_at := Some 3600 |} ]};
     now := 0;
     log := [] |}.

End Scenario.

(** More requests and stores, for the further properties. *)

Module MoreScenario.

(** A body that is not JSON, and a JSON object without a [query] field. *)
Definition not_json : request :=
  {| x_session_id := Some "S"; body_text := "hello" |}.

Definition no_query : request :=
  {| x_session_id := Some "S"; body_text := "{}" |}.

(** The turn that [Scenario.used] holds for session [S], as values. *)
Definition first_turn : list json :=
  [entry "user" (JStr "hello"); entry "assistant" (JStr "hi there")].

(** A store in which the second item of session [S] is not JSON. *)
Definition damaged : world :=
  {| redis := {[ "chat_history:S" :=
                   {| Redis.items := [Scenario.user_hello; "oops"];
                      Redis.expires_at := None |} ]};
     now := 0;
     log := [] |}.

End MoreScenario.

(** ** Facts about the store *)

Module RedisFacts.
Import Redis.

Lemma range_all (l : list string) : range l 0 (-1) = l.
Proof.
  unfold range. simpl.
  destruct l as [|x l]; [reflexivity|].
  set (n := Z.of_nat (length (x :: l))).
  assert (Hn : 0 < n) by (unfold n; simpl; lia).
  replace (n + -1 <? 0) with false by (symmetry; apply Z.ltb_ge; lia).
  replace (n <=? 0) with false by (symmetry; apply Z.leb_gt; lia).
  replace (n <=? n + -1) with false by (symmetry; apply Z.leb_gt; lia).
  simpl. replace (n + -1 - 0 + 1) with n by lia.
  unfold n. rewrite Nat2Z.id. apply firstn_all.
Qed.

Lemma live_absent now (db : gmap string rlist) key :
  db !! key = None -> live now db key = None.
Proof. unfold live. intros ->. reflexivity. Qed.

Lemma live_expired now (db : gmap string rlist) key e t :
  db !! key = Some e -> expires_at e = Some t -> t <= now ->
  live now db key = None.
Proof.
  unfold live, expired. intros -> -> Hle.
  apply Z.leb_le in Hle. rewrite Hle. reflexivity.
Qed.

Lemma live_None_inv now (db : gmap string rlist) key :
  live now db key = None ->
  db !! key = None \/
  exists e t, db !! key = Some e /\ expires_at e = Some t /\ t <= now.
Proof.
  unfold live, expired. destruct (db !! key) as [e|]; [|auto].
  destruct (expires_at e) as [t|] eqn:Ht; [|discriminate].
  destruct (t <=? now) eqn:Hle; [|discriminate].
  intros _. right. exists e, t. apply Z.leb_le in Hle. auto.
Qed.

Lemma live_Some_expired now (db : gmap string rlist) key e :
  live now db key = Some e -> expired now e = false.
Proof.
  unfold live. destruct (db !! key) as [e'|]; [|discriminate].
  destruct (expired now e') eqn:Hx; [discriminate|]. congruence.
Qed.

Lemma live_insert_eq now (db : gmap string rlist) key e :
  expired now e = false -> live now (<[key := e]> db) key = Some e.
Proof. unfold live. rewrite lookup_insert_eq. intros ->. reflexivity. Qed.

Lemma live_insert_ne now (db : gmap string rlist) key key' e :
  key <> key' -> live now (<[key := e]> db) key' = live now db key'.
Proof. unfold live. intros Hne. rewrite lookup_insert_ne; done. Qed.

(** After RPUSH the key is live, holds the old visible items followed by
    the new one, and has the TTL it had. *)
Lemma live_rpush now key item (db : gmap string rlist) :
  live now (rpush now key item db) key =
  Some {| items := lrange now key 0 (-1) db ++ [item];
          expires_at := match live now db key with
                        | Some e => expires_at e
                        | None => None
                        end |}.
Proof.
  unfold rpush, lrange. destruct (live now db key) as [e|] eqn:Hl.
  - rewrite range_all. apply live_insert_eq.
    apply live_Some_expired in Hl. unfold expired in *. exact Hl.
  - apply live_insert_eq. reflexivity.
Qed.

Lemma live_rpush_ne now key key' item (db : gmap string rlist) :
  key <> key' -> live now (rpush now key item db) key' = live now db key'.
Proof.
  intros Hne. unfold rpush.
  destruct (live now db key); apply live_insert_ne; exact Hne.
Qed.

Lemma lrange_rpush now key item (db : gmap string rlist) :
  lrange now key 0 (-1) (rpush now key item db) =
  lrange now key 0 (-1) db ++ [item].
Proof.
  unfold lrange at 1. rewrite live_rpush. simpl. apply range_all.
Qed.

Lemma ttl_rpush now key key' item (db : gmap string rlist) :
  ttl now key' (rpush now key item db) = ttl now key' db.
Proof.
  unfold ttl. destruct (decide (key = key')) as [<-|Hne].
  - rewrite live_rpush. simpl. destruct (live now db key); reflexivity.
  - rewrite live_rpush_ne by exact Hne. reflexivity.
Qed.

Lemma live_expire now key seconds (db : gmap string rlist) e :
  0 < seconds -> live now db key = Some e ->
  live now (expire now key seconds db) key =
  Some {| items := items e; expires_at := Some (now + seconds) |}.
Proof.
  intros Hpos Hl. unfold expire. rewrite Hl. apply live_insert_eq.
  unfold expired. simpl. apply Z.leb_gt. lia.
Qed.

Lemma live_expire_ne now key key' seconds (db : gmap string rlist) :
  key <> key' ->
  live now (expire now key seconds db) key' = live now db key'.
Proof.
  intros Hne. unfold expire.
  destruct (live now db key); [apply live_insert_ne; exact Hne|reflexivity].
Qed.

Lemma live_del key now (db : gmap string rlist) :
  live now (del key db) key = None.
Proof. unfold live, del. rewrite lookup_delete_eq. reflexivity. Qed.

Lemma del_del key (db : gmap string rlist) :
  del key (del key db) = del key db.
Proof.
  unfold del. apply map_eq. intros k.
  destruct (decide (key = k)) as [<-|Hne].
  - rewrite !lookup_delete_eq. reflexivity.
  - rewrite !lookup_delete_ne by exact Hne. reflexivity.
Qed.

End RedisFacts.

(** ** Facts about the handlers *)

Section ChatFacts.

Context `{JsonLib} (E : env).

Lemma truthy_Some_inv o :
  truthy o = true -> exists sid, o = Some sid /\ sid <> EmptyString.
Proof.
  destruct o as [s|]; simpl; [|discriminate].
  intros Hs. exists s. split; [reflexivity|].
  intros ->. discriminate.
Qed.

Lemma truthy_Some sid : sid <> EmptyString -> truthy (Some sid) = true.
Proof.
  intros Hne. simpl. destruct (String.eqb_spec sid ""); [contradiction|].
  reflexivity.
Qed.

(** [proxy_chat] always ends in one of the outcomes above. *)
Lemma proxy_chat_outcome req w :
  chat_outcome E req w (fst (proxy_chat E req w)) (snd (proxy_chat E req w)).
Proof.
  unfold proxy_chat.
  destruct (truthy (x_session_id req)) eqn:Ht; cbn [negb].
  2:{ apply chat_no_session. exact Ht. }
  apply truthy_Some_inv in Ht as (sid & Hsid & Hne). rewrite Hsid.
  cbn [fmt_opt].
  unfold forward, bind, try_except, request_json, loads, lift, ret, raise,
    redis_client_rpush, redis_client_expire, client_post.
  destruct (json_loads (body_text req)) as [msg|body] eqn:Hb.
  { eapply chat_bad_body; eauto. }
  destruct (py_get body "query" (JStr "")) as [query|e] eqn:Hq.
  2:{ eapply chat_body_not_dict; eauto. }
  destruct (upstream E (generate_request E sid query))
    as [status_code text|description] eqn:Hu.
  2:{ eapply chat_unreachable; eauto. }
  cbn [fst snd].
  destruct (status_code =? 200) eqn:Hs; cbn [negb].
  2:{ apply Z.eqb_neq in Hs. eapply chat_upstream_status; eauto. }
  apply Z.eqb_eq in Hs. subst status_code.
  destruct (json_loads text) as [msg|result] eqn:Hr.
  { eapply chat_reply_not_json; eauto. }
  destruct (py_get result "response" (JStr "")) as [content|e] eqn:Hc.
  2:{ eapply chat_reply_not_dict; eauto. }
  eapply chat_answered; eauto.
Qed.

(** Conversely, the premises of an outcome determine what [proxy_chat]
    computes. *)
Lemma chat_outcome_run req w r w' :
  chat_outcome E req w r w' -> proxy_chat E req w = (r, w').
Proof.
  intros Ho. unfold proxy_chat.
  destruct Ho as
    [ Ht
    | sid msg Hsid Hne Hb
    | sid body e Hsid Hne Hb Hq
    | sid body query description Hsid Hne Hb Hq Hu
    | sid body query status_code text Hsid Hne Hb Hq Hu Hs
    | sid body query text msg Hsid Hne Hb Hq Hu Hr
    | sid body query text result e Hsid Hne Hb Hq Hu Hr Hc
    | sid body query text result content Hsid Hne Hb Hq Hu Hr Hc ].
  1:{ rewrite Ht. reflexivity. }
  all: rewrite Hsid, (truthy_Some sid Hne); cbn [negb fmt_opt].
  all: unfold forward, bind, try_except, request_json, loads, lift, ret,
         raise, redis_client_rpush, redis_client_expire, client_post.
  all: rewrite Hb; try rewrite Hq; try reflexivity.
  all: rewrite Hu; try reflexivity; cbn [fst snd].
  1:{ apply Z.eqb_neq in Hs. rewrite Hs. reflexivity. }
  all: cbn [Z.eqb Pos.eqb negb].
  all: rewrite Hr; try rewrite Hc; reflexivity.
Qed.

(** What the new log entries show about one run of [/chat]. *)
Lemma log_emit ev w : log (emit ev w) = log w ++ [ev].
Proof. reflexivity. Qed.

Lemma log_do_rpush key item w :
  log (do_rpush key item w) = log w ++ [EvRpush key item].
Proof. reflexivity. Qed.

Lemma log_do_expire key seconds w :
  log (do_expire key seconds w) = log w ++ [EvExpire key seconds].
Proof. reflexivity. Qed.

Lemma transcript_emit ev w key : transcript (emit ev w) key = transcript w key.
Proof. reflexivity. Qed.

Lemma transcript_do_rpush key item w :
  transcript (do_rpush key item w) key = transcript w key ++ [item].
Proof. unfold transcript. simpl. apply RedisFacts.lrange_rpush. Qed.

Lemma transcript_do_rpush_ne key key' item w :
  key <> key' -> transcript (do_rpush key item w) key' = transcript w key'.
Proof.
  intros Hne. unfold transcript, Redis.lrange. simpl.
  rewrite RedisFacts.live_rpush_ne by exact Hne. reflexivity.
Qed.

Lemma ttl_emit ev w key :
  Redis.ttl (now (emit ev w)) key (redis (emit ev w)) =
  Redis.ttl (now w) key (redis w).
Proof. reflexivity. Qed.

Lemma ttl_do_rpush key key' item w :
  Redis.ttl (now (do_rpush key item w)) key' (redis (do_rpush key item w)) =
  Redis.ttl (now w) key' (redis w).
Proof. simpl. apply RedisFacts.ttl_rpush. Qed.

Lemma transcript_do_expire_ne key key' seconds w :
  key <> key' ->
  transcript (do_expire key seconds w) key' = transcript w key'.
Proof.
  intros Hne. unfold transcript, Redis.lrange. simpl.
  rewrite RedisFacts.live_expire_ne by exact Hne. reflexivity.
Qed.

(** EXPIRE right after an RPUSH on the same key: the items stay and the
    key now lives for [seconds]. *)
Lemma transcript_expire_rpush key item seconds w :
  0 < seconds ->
  transcript (do_expire key seconds (do_rpush key item w)) key =
  transcript w key ++ [item].
Proof.
  intros Hpos. unfold transcript, Redis.lrange at 1. simpl.
  erewrite RedisFacts.live_expire;
    [|exact Hpos|apply RedisFacts.live_rpush].
  simpl. apply RedisFacts.range_all.
Qed.

Lemma ttl_expire_rpush key item seconds w :
  0 < seconds ->
  Redis.ttl (now (do_expire key seconds (do_rpush key item w))) key
    (redis (do_expire key seconds (do_rpush key item w))) = Some seconds.
Proof.
  intros Hpos. unfold Redis.ttl. simpl.
  erewrite RedisFacts.live_expire;
    [|exact Hpos|apply RedisFacts.live_rpush].
  simpl. f_equal. lia.
Qed.

(** Decoding the stored items touches neither the store nor the log. *)
Lemma loads_all_world (l : list string) (w : world) :
  snd (loads_all l w) = w.
Proof.
  induction l as [|item l IH]; [reflexivity|].
  cbn [loads_all]. unfold bind, loads.
  destruct (json_loads item); [reflexivity|].
  unfold ret at 1. destruct (loads_all l w) as [[vs|e] w1] eqn:Hl;
    cbn [snd] in IH; subst w1; reflexivity.
Qed.

Lemma get_session_history_world (session_id : string) (w : world) :
  snd (get_session_history session_id w) =
  emit (EvLrange (history_key session_id) 0 (-1)) w.
Proof.
  unfold get_session_history, bind, redis_client_lrange.
  set (w1 := emit _ w).
  pose proof (loads_all_world
                (Redis.lrange (now w) (history_key session_id) 0 (-1)
                   (redis w)) w1) as Hw.
  destruct (loads_all _ w1) as [[vs|e] w2]; cbn [snd] in Hw; subst w2;
    reflexivity.
Qed.

Lemma get_session_history_empty (session_id : string) (w : world) :
  transcript w (history_key session_id) = [] ->
  fst (get_session_history session_id w) =
    Ok (JDict [("session_id", JStr session_id); ("history", JList [])]).
Proof.
  unfold transcript, get_session_history, bind, redis_client_lrange.
  intros ->. reflexivity.
Qed.

End ChatFacts.

(** ** Properties of the handlers *)

Section Claims.

Context `{JsonLib} (E : env).

(** C3. A [/chat] request without the [X-Session-Id] header fails with
    status 400, and nothing is appended anywhere: no store command is
    issued and every session's transcript is what it was. *)
Theorem chat_without_header_is_400 (req : request) (w : world) :
  x_session_id req = None ->
  fst (proxy_chat E req w) =
    Raise (HTTPException 400 "X-Session-Id header is required") /\
  http_status (fst (proxy_chat E req w)) = 400 /\
  log (snd (proxy_chat E req w)) = log w /\
  redis (snd (proxy_chat E req w)) = redis w /\
  forall key, transcript (snd (proxy_chat E req w)) key = transcript w key.
Proof.
  intros Hnone.
  assert (Ht : truthy (x_session_id req) = false) by (rewrite Hnone; reflexivity).
  rewrite (chat_outcome_run E req w _ _ (chat_no_session E req w Ht)).
  repeat split.
Qed.

(** C9. An [X-Session-Id] header that is present but empty is rejected
    exactly as an absent one: same 400 response, nothing appended. *)
Theorem chat_with_empty_header_is_400 (req : request) (w : world) :
  x_session_id req = Some EmptyString ->
  proxy_chat E req w =
    proxy_chat E {| x_session_id := None; body_text := body_text req |} w /\
  http_status (fst (proxy_chat E req w)) = 400 /\
  log (snd (proxy_chat E req w)) = log w /\
  forall key, transcript (snd (proxy_chat E req w)) key = transcript w key.
Proof.
  intros Hempty. unfold proxy_chat. rewrite Hempty. simpl. repeat split.
Qed.

(** C2. A [/chat] call that returns has appended exactly two entries to
    the session's transcript, the user entry and then the assistant entry.
    The log shows the order of effects: the user entry is pushed before the
    outbound call is issued, and the assistant entry is pushed after the
    call came back with status 200; no other transcript changes. *)
Theorem successful_chat_appends_user_then_assistant
        (req : request) (w : world) (result : json) :
  fst (proxy_chat E req w) = Ok result ->
  exists sid body query text content,
    x_session_id req = Some sid /\ sid <> EmptyString /\
    json_loads (body_text req) = inr body /\
    py_get body "query" (JStr "") = Ok query /\
    upstream E (generate_request E sid query) = Replied 200 text /\
    json_loads text = inr result /\
    py_get result "response" (JStr "") = Ok content /\
    let w' := snd (proxy_chat E req w) in
    let key := history_key sid in
    let user := json_dumps (entry "user" query) in
    let assistant := json_dumps (entry "assistant" content) in
    transcript w' key = transcript w key ++ [user; assistant] /\
    log w' = log w ++ [EvRpush key user;
                       EvPost (generate_request E sid query);
                       EvRpush key assistant;
                       EvExpire key 3600] /\
    forall key', key <> key' -> transcript w' key' = transcript w key'.
Proof.
  intros Hok. pose proof (proxy_chat_outcome E req w) as Ho.
  rewrite Hok in Ho. remember (snd (proxy_chat E req w)) as w' eqn:Hw'.
  clear Hw' Hok. inversion Ho as
    [ | | | | | |
    | sid body query text result' content Hsid Hne Hb Hq Hu Hr Hc Hres Hw ];
    subst.
  exists sid, body, query, text, content.
  repeat (split; [assumption|]). cbn zeta. split; [|split].
  - rewrite transcript_expire_rpush by lia.
    rewrite transcript_emit, transcript_do_rpush, <- app_assoc. reflexivity.
  - rewrite log_do_expire, log_do_rpush, log_emit, log_do_rpush.
    rewrite <- !app_assoc. reflexivity.
  - intros key' Hne'. rewrite transcript_do_expire_ne by exact Hne'.
    rewrite transcript_do_rpush_ne by exact Hne'.
    rewrite transcript_emit. apply transcript_do_rpush_ne. exact Hne'.
Qed.

(** C4. When the outbound call fails in transport (connection, timeout,
    any [httpx] exception), [/chat] fails with status 500 and a detail that
    ends with the error's description.  The log shows the user entry and
    one single outbound call: no assistant entry is pushed and the call is
    not retried. *)
Theorem transport_failure_is_500
        (req : request) (w : world) (sid : string) (body query : json)
        (description : string) :
  x_session_id req = Some sid -> sid <> EmptyString ->
  json_loads (body_text req) = inr body ->
  py_get body "query" (JStr "") = Ok query ->
  upstream E (generate_request E sid query) = Failed description ->
  let w' := snd (proxy_chat E req w) in
  let key := history_key sid in
  let user := json_dumps (entry "user" query) in
  fst (proxy_chat E req w) =
    Raise (HTTPException 500
             ("Error communicating with ML service: " +:+ description)) /\
  http_status (fst (proxy_chat E req w)) = 500 /\
  log w' = log w ++ [EvRpush key user;
                     EvPost (generate_request E sid query)] /\
  transcript w' key = transcript w key ++ [user].
Proof.
  intros Hsid Hne Hb Hq Hu.
  rewrite (chat_outcome_run E req w _ _
             (chat_unreachable E req w sid body query description
                Hsid Hne Hb Hq Hu)).
  cbn [fst snd]. repeat split.
  - rewrite log_emit, log_do_rpush, <- app_assoc. reflexivity.
  - rewrite transcript_emit. apply transcript_do_rpush.
Qed.

(** C5, as the code has it.  When the upstream answers 200 with a body
    that parses to a JSON object, [/chat] returns that object unchanged, and
    the assistant entry appended after the user entry has as content the
    object's [response] field, or the empty string when the object has no
    such field. *)
Theorem upstream_object_is_returned_verbatim
        (req : request) (w : world) (sid : string) (body query : json)
        (text : string) (d : list (string * json)) :
  x_session_id req = Some sid -> sid <> EmptyString ->
  json_loads (body_text req) = inr body ->
  py_get body "query" (JStr "") = Ok query ->
  upstream E (generate_request E sid query) = Replied 200 text ->
  json_loads text = inr (JDict d) ->
  let w' := snd (proxy_chat E req w) in
  let key := history_key sid in
  let content := match dict_lookup d "response" with
                 | Some v => v
                 | None => JStr ""
                 end in
  fst (proxy_chat E req w) = Ok (JDict d) /\
  transcript w' key =
    transcript w key ++ [json_dumps (entry "user" query);
                         json_dumps (entry "assistant" content)].
Proof.
  intros Hsid Hne Hb Hq Hu Hr.
  rewrite (chat_outcome_run E req w _ _
             (chat_answered E req w sid body query text (JDict d) _
                Hsid Hne Hb Hq Hu Hr eq_refl)).
  cbn [fst snd]. split; [reflexivity|].
  rewrite transcript_expire_rpush by lia.
  rewrite transcript_emit, transcript_do_rpush, <- app_assoc. reflexivity.
Qed.

(** C10. When the upstream answers 200 with a body that [json.loads]
    rejects, [/chat] fails with status 500.  The user entry pushed before
    the call stays in the transcript, no assistant entry follows it, and no
    key's TTL changes. *)
Theorem unparseable_reply_is_500
        (req : request) (w : world) (sid : string) (body query : json)
        (text msg : string) :
  x_session_id req = Some sid -> sid <> EmptyString ->
  json_loads (body_text req) = inr body ->
  py_get body "query" (JStr "") = Ok query ->
  upstream E (generate_request E sid query) = Replied 200 text ->
  json_loads text = inl msg ->
  let w' := snd (proxy_chat E req w) in
  let key := history_key sid in
  let user := json_dumps (entry "user" query) in
  http_status (fst (proxy_chat E req w)) = 500 /\
  fst (proxy_chat E req w) =
    Raise (HTTPException 500
             ("Error communicating with ML service: " +:+ msg)) /\
  log w' = log w ++ [EvRpush key user;
                     EvPost (generate_request E sid query)] /\
  transcript w' key = transcript w key ++ [user] /\
  forall k, Redis.ttl (now w') k (redis w') = Redis.ttl (now w) k (redis w).
Proof.
  intros Hsid Hne Hb Hq Hu Hr.
  rewrite (chat_outcome_run E req w _ _
             (chat_reply_not_json E req w sid body query text msg
                Hsid Hne Hb Hq Hu Hr)).
  cbn [fst snd]. repeat split.
  - rewrite log_emit, log_do_rpush, <- app_assoc. reflexivity.
  - rewrite transcript_emit. apply transcript_do_rpush.
  - intros k. rewrite ttl_emit. apply ttl_do_rpush.
Qed.

(** C6. The TTL of a transcript key is set to 3600 seconds exactly when a
    [/chat] call appends an assistant entry: a call that returns has pushed
    the assistant entry and then set the TTL, leaving 3600 seconds on the
    key; a call that fails has pushed at most the user entry, issued no
    EXPIRE, and left every key's TTL as it was.  Reading the history
    changes nothing in the store: the only command is one LRANGE. *)
Theorem ttl_refresh_iff_assistant_append (req : request) (w : world) :
  (let r := fst (proxy_chat E req w) in
   let w' := snd (proxy_chat E req w) in
   (exists result sid user o assistant,
      r = Ok result /\ x_session_id req = Some sid /\
      log w' = log w ++ [EvRpush (history_key sid) user; EvPost o;
                         EvRpush (history_key sid) assistant;
                         EvExpire (history_key sid) 3600] /\
      transcript w' (history_key sid) =
        transcript w (history_key sid) ++ [user; assistant] /\
      Redis.ttl (now w') (history_key sid) (redis w') = Some 3600)
   \/
   (exists e evs,
      r = Raise e /\ log w' = log w ++ evs /\
      (evs = [] \/ (exists k u, evs = [EvRpush k u]) \/
       (exists k u o, evs = [EvRpush k u; EvPost o])) /\
      forall k, Redis.ttl (now w') k (redis w') =
                Redis.ttl (now w) k (redis w)))
  /\
  (forall session_id,
     let w' := snd (get_session_history session_id w) in
     redis w' = redis w /\ now w' = now w /\
     log w' = log w ++ [EvLrange (history_key session_id) 0 (-1)] /\
     forall k, Redis.ttl (now w') k (redis w') =
               Redis.ttl (now w) k (redis w)).
Proof.
  split.
  - cbn zeta. pose proof (proxy_chat_outcome E req w) as Ho.
    destruct (proxy_chat E req w) as [r w']. cbn [fst snd] in *.
    destruct Ho as
      [ Ht
      | sid msg Hsid Hne Hb
      | sid body e Hsid Hne Hb Hq
      | sid body query description Hsid Hne Hb Hq Hu
      | sid body query status_code text Hsid Hne Hb Hq Hu Hs
      | sid body query text msg Hsid Hne Hb Hq Hu Hj
      | sid body query text result e Hsid Hne Hb Hq Hu Hj Hc
      | sid body query text result content Hsid Hne Hb Hq Hu Hj Hc ].
    1-3: right; eexists _, []; rewrite app_nil_r; auto.
    1-4: right; eexists _, _; split; [reflexivity|];
         (split; [rewrite log_emit, log_do_rpush, <- app_assoc; reflexivity|]);
         (split; [right; right; eauto|]);
         intros k; rewrite ttl_emit; apply ttl_do_rpush.
    left. exists result, sid, (json_dumps (entry "user" query)),
      (generate_request E sid query),
      (json_dumps (entry "assistant" content)).
    split; [reflexivity|]. split; [exact Hsid|]. split; [|split].
    + rewrite log_do_expire, log_do_rpush, log_emit, log_do_rpush.
      rewrite <- !app_assoc. reflexivity.
    + rewrite transcript_expire_rpush by lia.
      rewrite transcript_emit, transcript_do_rpush, <- app_assoc.
      reflexivity.
    + apply ttl_expire_rpush. lia.
  - intros session_id. cbn zeta. rewrite get_session_history_world.
    repeat split.
Qed.

(** C7. For a session with no stored transcript, because its key was never
    written or because the key has expired, reading the history succeeds
    and returns the session id with an empty history. *)
Theorem history_of_unknown_session_is_empty
        (session_id : string) (w : world) :
  (redis w !! history_key session_id = None \/
   exists e t, redis w !! history_key session_id = Some e /\
               Redis.expires_at e = Some t /\ t <= now w) ->
  fst (get_session_history session_id w) =
    Ok (JDict [("session_id", JStr session_id); ("history", JList [])]) /\
  http_status (fst (get_session_history session_id w)) = 200.
Proof.
  intros Hgone.
  assert (Hl : Redis.live (now w) (redis w) (history_key session_id) = None).
  { destruct Hgone as [Hnone|(e & t & He & Ht & Hle)].
    - apply RedisFacts.live_absent. exact Hnone.
    - eapply RedisFacts.live_expired; eauto. }
  rewrite get_session_history_empty; [split; reflexivity|].
  unfold transcript, Redis.lrange. rewrite Hl. reflexivity.
Qed.

(** C8. Clearing is idempotent: a second clear right after a first one
    succeeds with the same acknowledgement and leaves the store as the
    first left it; and whatever the transcript held, the history read right
    after a clear (first or second) is empty. *)
Theorem clear_is_idempotent (session_id : string) (w : world) :
  let ack := JDict [("session_id", JStr session_id);
                    ("message",
                     JStr "Chat history cleared successfully.")] in
  let empty := JDict [("session_id", JStr session_id);
                      ("history", JList [])] in
  let w1 := snd (clear_session_history session_id w) in
  let w2 := snd (clear_session_history session_id w1) in
  fst (clear_session_history session_id w) = Ok ack /\
  fst (clear_session_history session_id w1) = Ok ack /\
  redis w2 = redis w1 /\
  fst (get_session_history session_id w1) = Ok empty /\
  fst (get_session_history session_id w2) = Ok empty.
Proof.
  cbn zeta. split; [reflexivity|]. split; [reflexivity|]. split; [|split].
  - unfold clear_session_history, bind, redis_client_delete. cbn.
    apply RedisFacts.del_del.
  - apply get_session_history_empty.
    unfold transcript, Redis.lrange. cbn.
    rewrite RedisFacts.live_del. reflexivity.
  - apply get_session_history_empty.
    unfold transcript, Redis.lrange. cbn.
    rewrite RedisFacts.live_del. reflexivity.
Qed.

(** What the code does with any upstream status other than 200: the
    [HTTPException] raised for it does not leave the [try] block, and the
    response is the 500 of the [except] clause. *)
Lemma upstream_status_is_replaced_by_500
      (req : request) (w : world) (sid : string) (body query : json)
      (status_code : Z) (text : string) :
  x_session_id req = Some sid -> sid <> EmptyString ->
  json_loads (body_text req) = inr body ->
  py_get body "query" (JStr "") = Ok query ->
  upstream E (generate_request E sid query) = Replied status_code text ->
  status_code <> 200 ->
  http_status (fst (proxy_chat E req w)) = 500 /\
  log (snd (proxy_chat E req w)) =
    log w ++ [EvRpush (history_key sid) (json_dumps (entry "user" query));
              EvPost (generate_request E sid query)].
Proof.
  intros Hsid Hne Hb Hq Hu Hs.
  rewrite (chat_outcome_run E req w _ _
             (chat_upstream_status E req w sid body query status_code text
                Hsid Hne Hb Hq Hu Hs)).
  cbn [fst snd]. split; [reflexivity|].
  rewrite log_emit, log_do_rpush, <- app_assoc. reflexivity.
Qed.

End Claims.

(** ** The handlers on concrete requests *)

(** The scenario of the specification: one chat turn on a fresh store, then
    the history of the session. *)
Example hello_turn_then_history :
  let E := Scenario.service (Replied 200 Scenario.hi_there) in
  let turn := @proxy_chat RefJson.lib E (Scenario.chat (Some "S"))
                Scenario.fresh in
  fst turn = Ok (JDict [("response", JStr "hi there")]) /\
  fst (@get_session_history RefJson.lib "S" (snd turn)) =
    Ok (JDict [("session_id", JStr "S");
               ("history",
                JList [JDict [("role", JStr "user");
                              ("content", JStr "hello")];
                       JDict [("role", JStr "assistant");
                              ("content", JStr "hi there")]])]).
Proof. vm_compute. split; reflexivity. Qed.

(** C1, on the code.  The upstream answers 404.  [proxy_chat] raises an
    [HTTPException] carrying 404 inside its own [try] block, the enclosing
    [except Exception] catches it, and the client receives status 500; the
    upstream status survives only as text in the detail.  The user entry is
    in the transcript and no assistant entry follows it. *)
Theorem upstream_404_reaches_the_client_as_500 :
  let E := Scenario.service (Replied 404 "Not Found") in
  let run := @proxy_chat RefJson.lib E (Scenario.chat (Some "S"))
               Scenario.fresh in
  fst run =
    Raise (HTTPException 500
             "Error communicating with ML service: 404: ML service error") /\
  http_status (fst run) = 500 /\
  http_status (fst run) <> 404 /\
  transcript (snd run) "chat_history:S" = [Scenario.user_hello].
Proof. vm_compute. repeat split. discriminate. Qed.

(** C3 on a request without header, against a store that already holds a
    transcript. *)
Lemma chat_without_header_is_400_witness :
  x_session_id (Scenario.chat None) = None /\
  http_status
    (fst (@proxy_chat RefJson.lib
            (Scenario.service (Replied 200 Scenario.hi_there))
            (Scenario.chat None) Scenario.used)) = 400 /\
  log (snd (@proxy_chat RefJson.lib
              (Scenario.service (Replied 200 Scenario.hi_there))
              (Scenario.chat None) Scenario.used)) = [].
Proof.
  split; [reflexivity|].
  pose proof (@chat_without_header_is_400 RefJson.lib
                (Scenario.service (Replied 200 Scenario.hi_there))
                (Scenario.chat None) Scenario.used eq_refl)
    as (_ & Hs & Hl & _).
  split; [exact Hs|exact Hl].
Defined.

(** C9 on a request whose header is the empty string. *)
Lemma chat_with_empty_header_is_400_witness :
  x_session_id (Scenario.chat (Some EmptyString)) = Some EmptyString /\
  http_status
    (fst (@proxy_chat RefJson.lib
            (Scenario.service (Replied 200 Scenario.hi_there))
            (Scenario.chat (Some EmptyString)) Scenario.used)) = 400.
Proof.
  split; [reflexivity|].
  exact (proj1 (proj2
    (@chat_with_empty_header_is_400 RefJson.lib
       (Scenario.service (Replied 200 Scenario.hi_there))
       (Scenario.chat (Some EmptyString)) Scenario.used eq_refl))).
Defined.

(** C2 on the hello turn, on a session that already has one turn. *)
Lemma successful_chat_appends_user_then_assistant_witness :
  let E := Scenario.service (Replied 200 Scenario.hi_there) in
  let run := @proxy_chat RefJson.lib E (Scenario.chat (Some "S"))
               Scenario.used in
  fst run = Ok (JDict [("response", JStr "hi there")]) /\
  exists sid query content,
    transcript (snd run) (history_key sid) =
      transcript Scenario.used (history_key sid) ++
      [RefJson.dumps (entry "user" query);
       RefJson.dumps (entry "assistant" content)].
Proof.
  cbn zeta.
  assert (Hok : fst (@proxy_chat RefJson.lib
                       (Scenario.service (Replied 200 Scenario.hi_there))
                       (Scenario.chat (Some "S")) Scenario.used) =
                Ok (JDict [("response", JStr "hi there")])).
  { vm_compute. reflexivity. }
  split; [exact Hok|].
  destruct (@successful_chat_appends_user_then_assistant RefJson.lib
              (Scenario.service (Replied 200 Scenario.hi_there))
              (Scenario.chat (Some "S")) Scenario.used _ Hok)
    as (sid & body & query & text & content & _ & _ & _ & _ & _ & _ & _
        & Ht & _).
  exists sid, query, content. exact Ht.
Defined.

(** C4 on a service that cannot be reached. *)
Lemma transport_failure_is_500_witness :
  let E := Scenario.service (Failed "All connection attempts failed") in
  let run := @proxy_chat RefJson.lib E (Scenario.chat (Some "S"))
               Scenario.fresh in
  upstream E (generate_request E "S" (JStr "hello")) =
    Failed "All connection attempts failed" /\
  fst run =
    Raise (HTTPException 500
             ("Error communicating with ML service: " +:+
              "All connection attempts failed")) /\
  log (snd run) =
    [EvRpush "chat_history:S" Scenario.user_hello;
     EvPost (generate_request E "S" (JStr "hello"))].
Proof.
  cbn zeta. split; [reflexivity|].
  pose proof (@transport_failure_is_500 RefJson.lib
                (Scenario.service (Failed "All connection attempts failed"))
                (Scenario.chat (Some "S")) Scenario.fresh "S"
                (JDict [("query", JStr "hello")]) (JStr "hello")
                "All connection attempts failed"
                eq_refl ltac:(discriminate) ltac:(vm_compute; reflexivity)
                eq_refl eq_refl)
    as (Hr & _ & Hl & _).
  split; [exact Hr|exact Hl].
Defined.

(** C5 as stated fails on a JSON body that is not an object.  The upstream
    answers 200 with the JSON list [[]]: the body parses, [result.get] raises
    [AttributeError] inside the [try] block, and the client receives status
    500 in place of the body. *)
Lemma json_list_reply_is_not_returned :
  let E := Scenario.service (Replied 200 "[]") in
  let run := @proxy_chat RefJson.lib E (Scenario.chat (Some "S"))
               Scenario.fresh in
  upstream E (generate_request E "S" (JStr "hello")) = Replied 200 "[]" /\
  @json_loads RefJson.lib "[]" = inr (JList []) /\
  fst run =
    Raise (HTTPException 500
             ("Error communicating with ML service: " +:+
              "'list' object has no attribute 'get'")) /\
  fst run <> Ok (JList []) /\
  transcript (snd run) "chat_history:S" = [Scenario.user_hello].
Proof. vm_compute. repeat split. discriminate. Qed.

(** C5, amended, on the hello turn. *)
Lemma upstream_object_is_returned_verbatim_witness :
  let E := Scenario.service (Replied 200 Scenario.hi_there) in
  let run := @proxy_chat RefJson.lib E (Scenario.chat (Some "S"))
               Scenario.fresh in
  @json_loads RefJson.lib Scenario.hi_there =
    inr (JDict [("response", JStr "hi there")]) /\
  fst run = Ok (JDict [("response", JStr "hi there")]) /\
  transcript (snd run) "chat_history:S" =
    [Scenario.user_hello; Scenario.assistant_hi].
Proof.
  cbn zeta. split; [vm_compute; reflexivity|].
  exact (@upstream_object_is_returned_verbatim RefJson.lib
           (Scenario.service (Replied 200 Scenario.hi_there))
           (Scenario.chat (Some "S")) Scenario.fresh "S"
           (JDict [("query", JStr "hello")]) (JStr "hello")
           Scenario.hi_there [("response", JStr "hi there")]
           eq_refl ltac:(discriminate) ltac:(vm_compute; reflexivity)
           eq_refl eq_refl ltac:(vm_compute; reflexivity)).
Defined.

(** C7 on a session that was never written and on one whose key has
    expired. *)
Lemma history_of_unknown_session_is_empty_witness :
  redis Scenario.fresh !! history_key "S" = None /\
  fst (@get_session_history RefJson.lib "S" Scenario.fresh) =
    Ok (JDict [("session_id", JStr "S"); ("history", JList [])]) /\
  fst (@get_session_history RefJson.lib "S" (elapse 3600 Scenario.used)) =
    Ok (JDict [("session_id", JStr "S"); ("history", JList [])]).
Proof.
  split; [reflexivity|]. split.
  - exact (proj1 (@history_of_unknown_session_is_empty RefJson.lib "S"
                    Scenario.fresh (or_introl eq_refl))).
  - refine (proj1 (@history_of_unknown_session_is_empty RefJson.lib "S"
                     (elapse 3600 Scenario.used) (or_intror _))).
    exists {| Redis.items := [Scenario.user_hello; Scenario.assistant_hi];
              Redis.expires_at := Some 3600 |}, 3600.
    split; [vm_compute; reflexivity|]. split; [reflexivity|].
    vm_compute. discriminate.
Defined.

(** C10 on a service that answers 200 with a page that is not JSON. *)
Lemma unparseable_reply_is_500_witness :
  let E := Scenario.service (Replied 200 "<html>Bad Gateway</html>") in
  let run := @proxy_chat RefJson.lib E (Scenario.chat (Some "S"))
               Scenario.used in
  @json_loads RefJson.lib "<html>Bad Gateway</html>" = inl "Expecting value" /\
  http_status (fst run) = 500 /\
  transcript (snd run) "chat_history:S" =
    transcript Scenario.used "chat_history:S" ++ [Scenario.user_hello] /\
  Redis.ttl (now (snd run)) "chat_history:S" (redis (snd run)) = Some 3600.
Proof.
  cbn zeta. split; [vm_compute; reflexivity|].
  pose proof (@unparseable_reply_is_500 RefJson.lib
                (Scenario.service (Replied 200 "<html>Bad Gateway</html>"))
                (Scenario.chat (Some "S")) Scenario.used "S"
                (JDict [("query", JStr "hello")]) (JStr "hello")
                "<html>Bad Gateway</html>" "Expecting value"
                eq_refl ltac:(discriminate) ltac:(vm_compute; reflexivity)
                eq_refl eq_refl ltac:(vm_compute; reflexivity))
    as (Hs & _ & _ & Ht & Httl).
  split; [exact Hs|]. split; [exact Ht|].
  rewrite Httl. vm_compute. reflexivity.
Defined.

(** ** Further facts about the handlers *)

Section MoreFacts.

Context `{JsonLib} (E : env).

(** Distinct sessions have distinct keys. *)
Lemma history_key_inj (a b : string) : history_key a = history_key b -> a = b.
Proof. unfold history_key. intros Heq. cbv in Heq. inversion Heq. reflexivity. Qed.

(** [.get] fails with [AttributeError] only. *)
Lemma py_get_raise (v : json) (k : string) (default : json) (e : exn) :
  py_get v k default = Raise e -> exists msg, e = AttributeError msg.
Proof.
  destruct v; simpl; intros Heq; inversion Heq; eauto.
Qed.

Lemma py_get_not_dict (v : json) (k : string) (default : json) :
  (forall d, v <> JDict d) ->
  py_get v k default =
    Raise (AttributeError
             ("'" +:+ type_name v +:+ "' object has no attribute 'get'")).
Proof.
  intros Hnd. destruct v; try reflexivity. exfalso. eapply Hnd. reflexivity.
Qed.

(** A live key is in the raw store. *)
Lemma live_Some_lookup now (db : gmap string Redis.rlist) key e :
  Redis.live now db key = Some e -> db !! key = Some e.
Proof.
  unfold Redis.live. destruct (db !! key) as [e'|]; [|discriminate].
  destruct (Redis.expired now e'); [discriminate|]. exact (fun x => x).
Qed.

(** What a key shows [dt] later, after an RPUSH followed by an EXPIRE of
    [seconds]. *)
Lemma transcript_elapse_expire_rpush key item seconds w dt :
  0 < seconds ->
  transcript (elapse dt (do_expire key seconds (do_rpush key item w))) key =
  if seconds <=? dt then [] else transcript w key ++ [item].
Proof.
  intros Hpos.
  pose proof (RedisFacts.live_expire (now w) key seconds
                (Redis.rpush (now w) key item (redis w)) _ Hpos
                (RedisFacts.live_rpush (now w) key item (redis w))) as Hl.
  apply live_Some_lookup in Hl.
  change (Redis.lrange (now w) key 0 (-1) (redis w))
    with (transcript w key) in Hl.
  remember (transcript w key) as old eqn:Hold. clear Hold.
  unfold transcript, Redis.lrange, Redis.live, Redis.expired.
  cbn [elapse do_expire do_rpush on_redis emit redis now].
  rewrite Hl. cbn [Redis.expires_at Redis.items].
  destruct (seconds <=? dt) eqn:Hdt.
  - apply Z.leb_le in Hdt.
    replace (now w + seconds <=? now w + dt) with true
      by (symmetry; apply Z.leb_le; lia).
    reflexivity.
  - apply Z.leb_gt in Hdt.
    replace (now w + seconds <=? now w + dt) with false
      by (symmetry; apply Z.leb_gt; lia).
    apply RedisFacts.range_all.
Qed.

(** The raw store away from the key a command names. *)
Lemma redis_do_rpush_ne key key' item w :
  key <> key' -> redis (do_rpush key item w) !! key' = redis w !! key'.
Proof.
  intros Hne. unfold do_rpush, on_redis, Redis.rpush. simpl.
  destruct (Redis.live (now w) (redis w) key);
    rewrite lookup_insert_ne by exact Hne; reflexivity.
Qed.

Lemma redis_do_expire_ne key key' seconds w :
  key <> key' -> redis (do_expire key seconds w) !! key' = redis w !! key'.
Proof.
  intros Hne. unfold do_expire, on_redis, Redis.expire. simpl.
  destruct (Redis.live (now w) (redis w) key); [|reflexivity].
  rewrite lookup_insert_ne by exact Hne. reflexivity.
Qed.

Lemma redis_do_delete_ne key key' w :
  key <> key' -> redis (do_delete key w) !! key' = redis w !! key'.
Proof.
  intros Hne. unfold do_delete, on_redis, Redis.del. simpl.
  rewrite lookup_delete_ne by exact Hne. reflexivity.
Qed.

(** What a key shows depends on its own store entry and the clock only. *)
Lemma transcript_ext w1 w2 key :
  redis w1 !! key = redis w2 !! key -> now w1 = now w2 ->
  transcript w1 key = transcript w2 key.
Proof.
  intros Hr Hn. unfold transcript, Redis.lrange, Redis.live.
  rewrite Hr, Hn. reflexivity.
Qed.

(** Decoding does not read the world. *)
Lemma loads_all_result (l : list string) (w1 w2 : world) :
  fst (loads_all l w1) = fst (loads_all l w2).
Proof.
  induction l as [|item l IH]; [reflexivity|].
  cbn [loads_all]. unfold bind, loads.
  destruct (json_loads item) as [msg|v]; [reflexivity|].
  unfold ret at 1 3.
  destruct (loads_all l w1) as [[vs1|e1] w1'],
           (loads_all l w2) as [[vs2|e2] w2']; cbn [fst] in IH;
    inversion IH; reflexivity.
Qed.

(** The history is the decoded transcript. *)
Lemma get_session_history_result (session_id : string) (w : world) :
  fst (get_session_history session_id w) =
  match fst (loads_all (transcript w (history_key session_id)) w) with
  | Ok history => Ok (JDict [("session_id", JStr session_id);
                             ("history", JList history)])
  | Raise e => Raise e
  end.
Proof.
  unfold get_session_history, bind, redis_client_lrange, transcript.
  set (l := Redis.lrange _ _ _ _ _).
  rewrite (loads_all_result l w (emit (EvLrange (history_key session_id) 0 (-1)) w)).
  destruct (loads_all l _) as [[vs|e] w']; reflexivity.
Qed.

Lemma get_session_history_same (session_id : string) (w1 w2 : world) :
  transcript w1 (history_key session_id) =
  transcript w2 (history_key session_id) ->
  fst (get_session_history session_id w1) =
  fst (get_session_history session_id w2).
Proof.
  intros Ht. rewrite !get_session_history_result, Ht.
  rewrite (loads_all_result _ w1 w2). reflexivity.
Qed.

(** Items that were written by [dumps] and survive the round trip decode to
    the values they came from. *)
Lemma loads_all_dumps (vs : list json) (w : world) :
  (forall v, In v vs -> json_loads (json_dumps v) = inr v) ->
  loads_all (map json_dumps vs) w = (Ok vs, w).
Proof.
  induction vs as [|v vs IH]; intros Hrt; [reflexivity|].
  cbn [map loads_all]. unfold bind, loads.
  rewrite (Hrt v (or_introl eq_refl)). unfold ret at 1.
  rewrite IH by (intros v' Hin; apply Hrt; right; exact Hin).
  reflexivity.
Qed.

(** Decoding stops at the first item [loads] rejects. *)
Lemma loads_all_bad (good : list string) (bad msg : string)
      (rest : list string) (w : world) :
  (forall item, In item good -> exists v, json_loads item = inr v) ->
  json_loads bad = inl msg ->
  loads_all (good ++ bad :: rest) w = (Raise (JSONDecodeError msg), w).
Proof.
  intros Hgood Hbad. induction good as [|item good IH].
  - cbn [app loads_all]. unfold bind, loads. rewrite Hbad. reflexivity.
  - cbn [app loads_all]. unfold bind, loads.
    destruct (Hgood item (or_introl eq_refl)) as [v Hv]. rewrite Hv.
    unfold ret at 1.
    rewrite IH by (intros item' Hin; apply Hgood; right; exact Hin).
    reflexivity.
Qed.

(** A request that passes the header check and carries a JSON object ends
    either in a failure right after the outbound call, or in the answered
    state. *)
Lemma proxy_chat_forwarded req w sid body query :
  x_session_id req = Some sid -> sid <> EmptyString ->
  json_loads (body_text req) = inr body ->
  py_get body "query" (JStr "") = Ok query ->
  let w1 := emit (EvPost (generate_request E sid query))
              (do_rpush (history_key sid)
                 (json_dumps (entry "user" query)) w) in
  (exists detail,
     proxy_chat E req w = (Raise (HTTPException 500 detail), w1)) \/
  (exists result content,
     py_get result "response" (JStr "") = Ok content /\
     proxy_chat E req w =
       (Ok result,
        do_expire (history_key sid) 3600
          (do_rpush (history_key sid)
             (json_dumps (entry "assistant" content)) w1))).
Proof.
  intros Hsid Hne Hb Hq. cbn zeta.
  pose proof (proxy_chat_outcome E req w) as Ho.
  destruct (proxy_chat E req w) as [r w']. cbn [fst snd] in Ho.
  destruct Ho as
    [ Ht
    | sid' msg Hsid' Hne' Hb'
    | sid' body' e Hsid' Hne' Hb' Hq'
    | sid' body' query' description Hsid' Hne' Hb' Hq' Hu
    | sid' body' query' status_code text Hsid' Hne' Hb' Hq' Hu Hs
    | sid' body' query' text msg Hsid' Hne' Hb' Hq' Hu Hj
    | sid' body' query' text result e Hsid' Hne' Hb' Hq' Hu Hj Hc
    | sid' body' query' text result content Hsid' Hne' Hb' Hq' Hu Hj Hc ].
  1:{ rewrite Hsid, (truthy_Some sid Hne) in Ht. discriminate. }
  1:{ congruence. }
  all: assert (sid' = sid) by congruence; subst sid'.
  all: assert (body' = body) by congruence; subst body'.
  1:{ congruence. }
  all: assert (query' = query) by congruence; subst query'.
  1-4: left; eexists; reflexivity.
  right. exists result, content. split; [exact Hc|reflexivity].
Qed.

(** Whatever its outcome, [/chat] changes the raw store at the key of its
    own session only, and does not move the clock. *)
Lemma proxy_chat_frame req w key :
  (forall sid, x_session_id req = Some sid -> history_key sid <> key) ->
  redis (snd (proxy_chat E req w)) !! key = redis w !! key /\
  now (snd (proxy_chat E req w)) = now w.
Proof.
  intros Hkey. pose proof (proxy_chat_outcome E req w) as Ho.
  destruct (proxy_chat E req w) as [r w']. cbn [fst snd] in *.
  destruct Ho as
    [ Ht
    | sid msg Hsid Hne Hb
    | sid body e Hsid Hne Hb Hq
    | sid body query description Hsid Hne Hb Hq Hu
    | sid body query status_code text Hsid Hne Hb Hq Hu Hs
    | sid body query text msg Hsid Hne Hb Hq Hu Hj
    | sid body query text result e Hsid Hne Hb Hq Hu Hj Hc
    | sid body query text result content Hsid Hne Hb Hq Hu Hj Hc ].
  1-3: split; reflexivity.
  1-4: split; [|reflexivity];
       exact (redis_do_rpush_ne _ _ _ w (Hkey sid Hsid)).
  split; [|reflexivity].
  rewrite redis_do_expire_ne by exact (Hkey sid Hsid).
  rewrite redis_do_rpush_ne by exact (Hkey sid Hsid).
  exact (redis_do_rpush_ne _ _ _ w (Hkey sid Hsid)).
Qed.

End MoreFacts.

(** ** Further properties of the handlers *)

Section MoreProperties.

Context `{JsonLib} (E : env).

(** X1. A [/chat] request with a session id whose body is not JSON, or is
    JSON but not an object, fails with status 500 through an exception that
    is not an [HTTPException]; it fails before the first store command:
    nothing is stored, nothing is sent upstream. *)
Theorem malformed_body_fails_before_storing
        (req : request) (w : world) (sid : string) :
  x_session_id req = Some sid -> sid <> EmptyString ->
  ((exists msg, json_loads (body_text req) = inl msg) \/
   (exists body, json_loads (body_text req) = inr body /\
                 forall d, body <> JDict d)) ->
  http_status (fst (proxy_chat E req w)) = 500 /\
  (forall status_code detail,
     fst (proxy_chat E req w) <> Raise (HTTPException status_code detail)) /\
  snd (proxy_chat E req w) = w.
Proof.
  intros Hsid Hne [[msg Hb]|(body & Hb & Hnd)].
  - rewrite (chat_outcome_run E req w _ _
               (chat_bad_body E req w sid msg Hsid Hne Hb)).
    cbn [fst snd]. repeat split. discriminate.
  - pose proof (py_get_not_dict body "query" (JStr "") Hnd) as Hq.
    rewrite (chat_outcome_run E req w _ _
               (chat_body_not_dict E req w sid body _ Hsid Hne Hb Hq)).
    cbn [fst snd]. repeat split. discriminate.
Qed.

(** X2. For a request with a session id and a JSON object body, exactly one
    outbound call is made, whatever the upstream then does.  It is made right
    after the user entry is stored, to [ML_SERVICE_URL] followed by
    [/generate], with a 60 second timeout and the bearer credential, and its
    JSON body holds the stored query and the session id and nothing else. *)
Theorem wellformed_chat_calls_upstream_once
        (req : request) (w : world) (sid : string) (body query : json) :
  x_session_id req = Some sid -> sid <> EmptyString ->
  json_loads (body_text req) = inr body ->
  py_get body "query" (JStr "") = Ok query ->
  exists rest,
    log (snd (proxy_chat E req w)) =
      log w ++
      [EvRpush (history_key sid) (json_dumps (entry "user" query));
       EvPost {| url := fmt_opt (ML_SERVICE_URL E) +:+ "/generate";
                 payload := JDict [("query", query);
                                   ("session_id", JStr sid)];
                 authorization :=
                   "Bearer " +:+ fmt_opt (ML_SERVICE_API_KEY E);
                 timeout := 60 |}] ++ rest /\
    forall o, ~ In (EvPost o) rest.
Proof.
  intros Hsid Hne Hb Hq.
  destruct (proxy_chat_forwarded E req w sid body query Hsid Hne Hb Hq)
    as [[detail Hrun]|(result & content & _ & Hrun)]; rewrite Hrun;
    cbn [snd].
  - exists []. split.
    + rewrite log_emit, log_do_rpush, <- app_assoc. reflexivity.
    + intros o [].
  - eexists. split.
    + rewrite log_do_expire, log_do_rpush, log_emit, log_do_rpush.
      rewrite <- !app_assoc. reflexivity.
    + intros o [Hin|[Hin|[]]]; discriminate.
Qed.

(** X3. A JSON object body without a [query] field is not rejected: the
    empty string stands in for the query, both in the stored user entry and
    in the body sent upstream. *)
Theorem missing_query_is_the_empty_string
        (req : request) (w : world) (sid : string)
        (d : list (string * json)) :
  x_session_id req = Some sid -> sid <> EmptyString ->
  json_loads (body_text req) = inr (JDict d) ->
  dict_lookup d "query" = None ->
  exists o rest,
    payload o = JDict [("query", JStr ""); ("session_id", JStr sid)] /\
    log (snd (proxy_chat E req w)) =
      log w ++
      [EvRpush (history_key sid) (json_dumps (entry "user" (JStr "")));
       EvPost o] ++ rest /\
    http_status (fst (proxy_chat E req w)) <> 400.
Proof.
  intros Hsid Hne Hb Hd.
  assert (Hq : py_get (JDict d) "query" (JStr "") = Ok (JStr ""))
    by (simpl; rewrite Hd; reflexivity).
  exists (generate_request E sid (JStr "")).
  destruct (proxy_chat_forwarded E req w sid _ _ Hsid Hne Hb Hq)
    as [[detail Hrun]|(result & content & _ & Hrun)]; rewrite Hrun;
    cbn [fst snd].
  - exists []. split; [reflexivity|]. split; [|discriminate].
    rewrite log_emit, log_do_rpush, <- app_assoc. reflexivity.
  - eexists. split; [reflexivity|]. split; [|discriminate].
    rewrite log_do_expire, log_do_rpush, log_emit, log_do_rpush.
    rewrite <- !app_assoc. reflexivity.
Qed.

(** X4. A [/chat] request leaves every other session alone: for a session id
    that is not the one in the header, the store entry is untouched and the
    history handler answers as before, whatever the outcome of the
    request. *)
Theorem chat_leaves_other_sessions_alone
        (req : request) (w : world) (other : string) :
  x_session_id req <> Some other ->
  redis (snd (proxy_chat E req w)) !! history_key other =
    redis w !! history_key other /\
  fst (get_session_history other (snd (proxy_chat E req w))) =
    fst (get_session_history other w).
Proof.
  intros Hother.
  destruct (proxy_chat_frame E req w (history_key other)) as [Hraw Hnow].
  { intros sid Hsid Heq. apply history_key_inj in Heq. congruence. }
  split; [exact Hraw|].
  apply get_session_history_same. apply transcript_ext; assumption.
Qed.

(** X5. When the upstream answers 200 with a body that is JSON but not an
    object (a list, a string, a number, [null]), [/chat] fails with status
    500: [result.get] raises inside the [try] block.  The user entry stays,
    no assistant entry is stored and no TTL changes. *)
Theorem reply_not_object_is_500
        (req : request) (w : world) (sid : string) (body query : json)
        (text : string) (result : json) :
  x_session_id req = Some sid -> sid <> EmptyString ->
  json_loads (body_text req) = inr body ->
  py_get body "query" (JStr "") = Ok query ->
  upstream E (generate_request E sid query) = Replied 200 text ->
  json_loads text = inr result ->
  (forall d, result <> JDict d) ->
  let w' := snd (proxy_chat E req w) in
  fst (proxy_chat E req w) =
    Raise (HTTPException 500
             ("Error communicating with ML service: " +:+
              "'" +:+ type_name result +:+
              "' object has no attribute 'get'")) /\
  log w' = log w ++
           [EvRpush (history_key sid) (json_dumps (entry "user" query));
            EvPost (generate_request E sid query)] /\
  transcript w' (history_key sid) =
    transcript w (history_key sid) ++ [json_dumps (entry "user" query)] /\
  forall k, Redis.ttl (now w') k (redis w') = Redis.ttl (now w) k (redis w).
Proof.
  intros Hsid Hne Hb Hq Hu Hj Hnd.
  pose proof (py_get_not_dict result "response" (JStr "") Hnd) as Hc.
  rewrite (chat_outcome_run E req w _ _
             (chat_reply_not_dict E req w sid body query text result _
                Hsid Hne Hb Hq Hu Hj Hc)).
  cbn [fst snd str_exn]. repeat split.
  - rewrite log_emit, log_do_rpush, <- app_assoc. reflexivity.
  - rewrite transcript_emit. apply transcript_do_rpush.
  - intros k. rewrite ttl_emit. apply ttl_do_rpush.
Qed.

(** X6. [/chat] answers with status 200, 400 or 500 and no other: an
    upstream status never reaches the client.  Status 400 is sent exactly
    when the [X-Session-Id] header is absent or empty. *)
Theorem chat_status_is_200_400_or_500 (req : request) (w : world) :
  let status := http_status (fst (proxy_chat E req w)) in
  (status = 200 \/ status = 400 \/ status = 500) /\
  (status = 400 <->
   x_session_id req = None \/ x_session_id req = Some EmptyString).
Proof.
  cbn zeta. pose proof (proxy_chat_outcome E req w) as Ho.
  destruct (proxy_chat E req w) as [r w']. cbn [fst snd] in *.
  assert (Hfalsy : truthy (x_session_id req) = false <->
                   x_session_id req = None \/
                   x_session_id req = Some EmptyString).
  { destruct (x_session_id req) as [s|]; simpl.
    - destruct (String.eqb_spec s ""); subst; simpl; split; auto;
        try discriminate.
      intros [Hx|Hx]; congruence.
    - split; auto. }
  assert (Hgiven : forall sid, x_session_id req = Some sid ->
                               sid <> EmptyString ->
                               ~ (x_session_id req = None \/
                                  x_session_id req = Some EmptyString)).
  { intros sid Hsid Hne [Hx|Hx]; congruence. }
  destruct Ho as
    [ Ht
    | sid msg Hsid Hne Hb
    | sid body e Hsid Hne Hb Hq
    | sid body query description Hsid Hne Hb Hq Hu
    | sid body query status_code text Hsid Hne Hb Hq Hu Hs
    | sid body query text msg Hsid Hne Hb Hq Hu Hj
    | sid body query text result e Hsid Hne Hb Hq Hu Hj Hc
    | sid body query text result content Hsid Hne Hb Hq Hu Hj Hc ].
  1:{ simpl. split; [auto|]. split; [intros _; apply Hfalsy; exact Ht|auto]. }
  2:{ apply py_get_raise in Hq as [m ->]. simpl. split; [auto|].
      split; [discriminate|]. intros Hx. destruct (Hgiven sid Hsid Hne Hx). }
  all: simpl; (split; [auto|]); split; [discriminate|];
       intros Hx; destruct (Hgiven sid Hsid Hne Hx).
Qed.

(** X7. The history handler returns the stored items decoded, in stored
    order: when the items of the session are the [dumps] of a list of values
    that [loads] reads back, the history is that list. *)
Theorem history_decodes_the_transcript
        (session_id : string) (w : world) (vs : list json) :
  transcript w (history_key session_id) = map json_dumps vs ->
  (forall v, In v vs -> json_loads (json_dumps v) = inr v) ->
  fst (get_session_history session_id w) =
    Ok (JDict [("session_id", JStr session_id); ("history", JList vs)]).
Proof.
  intros Ht Hrt. rewrite get_session_history_result, Ht.
  rewrite loads_all_dumps by exact Hrt. reflexivity.
Qed.

(** X8. A chat turn followed by a history read: after a [/chat] call that
    returned, the history of the session is the history it had, followed by
    the user entry with the query and the assistant entry with the [response]
    field of the result (for a [json] module that reads back what it
    writes). *)
Theorem history_after_successful_chat
        (req : request) (w : world) (sid : string) (body query : json)
        (result content : json) (vs : list json) :
  x_session_id req = Some sid ->
  json_loads (body_text req) = inr body ->
  py_get body "query" (JStr "") = Ok query ->
  fst (proxy_chat E req w) = Ok result ->
  py_get result "response" (JStr "") = Ok content ->
  transcript w (history_key sid) = map json_dumps vs ->
  (forall v, In v (vs ++ [entry "user" query; entry "assistant" content]) ->
             json_loads (json_dumps v) = inr v) ->
  fst (get_session_history sid (snd (proxy_chat E req w))) =
    Ok (JDict [("session_id", JStr sid);
               ("history",
                JList (vs ++ [entry "user" query;
                              entry "assistant" content]))]).
Proof.
  intros Hsid Hb Hq Hok Hc Ht Hrt.
  assert (Hne : sid <> EmptyString).
  { intros ->. unfold proxy_chat in Hok. rewrite Hsid in Hok.
    discriminate Hok. }
  rewrite get_session_history_result.
  match goal with |- context [loads_all ?l ?x] =>
    assert (Hl : l = map json_dumps
                       (vs ++ [entry "user" query;
                               entry "assistant" content]))
  end.
  2:{ rewrite Hl, loads_all_dumps by exact Hrt. reflexivity. }
  destruct (proxy_chat_forwarded E req w sid body query Hsid Hne Hb Hq)
    as [[detail Hrun]|(result' & content' & Hc' & Hrun)];
    rewrite Hrun in *; cbn [fst snd] in *; [discriminate|].
  assert (result' = result) by congruence. subst result'.
  assert (content' = content) by congruence. subst content'.
  rewrite transcript_expire_rpush by lia.
  rewrite transcript_emit, transcript_do_rpush, Ht, <- app_assoc.
  rewrite map_app. reflexivity.
Qed.

(** X9. One stored item that [loads] rejects makes the whole history read
    fail: the handler raises the [JSONDecodeError] of the first such item,
    the client receives status 500, and the store is left as it was. *)
Theorem history_with_undecodable_item_is_500
        (session_id : string) (w : world)
        (good : list string) (bad msg : string) (rest : list string) :
  transcript w (history_key session_id) = good ++ bad :: rest ->
  (forall item, In item good -> exists v, json_loads item = inr v) ->
  json_loads bad = inl msg ->
  fst (get_session_history session_id w) = Raise (JSONDecodeError msg) /\
  http_status (fst (get_session_history session_id w)) = 500 /\
  redis (snd (get_session_history session_id w)) = redis w.
Proof.
  intros Ht Hgood Hbad.
  assert (Hr : fst (get_session_history session_id w) =
               Raise (JSONDecodeError msg)).
  { rewrite get_session_history_result, Ht.
    rewrite (loads_all_bad good bad msg rest w Hgood Hbad). reflexivity. }
  rewrite Hr, get_session_history_world. repeat split.
Qed.

(** X10. A first turn that fails after the user entry was stored leaves a
    key without TTL: [expire] is only reached on success, so the lone user
    entry stays readable however much time passes. *)
Theorem failed_first_turn_never_expires
        (req : request) (w : world) (sid : string) (body query : json)
        (e : exn) :
  x_session_id req = Some sid -> sid <> EmptyString ->
  json_loads (body_text req) = inr body ->
  py_get body "query" (JStr "") = Ok query ->
  fst (proxy_chat E req w) = Raise e ->
  Redis.live (now w) (redis w) (history_key sid) = None ->
  let w' := snd (proxy_chat E req w) in
  Redis.ttl (now w') (history_key sid) (redis w') = None /\
  forall dt, transcript (elapse dt w') (history_key sid) =
             [json_dumps (entry "user" query)].
Proof.
  intros Hsid Hne Hb Hq Hfail Hfresh. cbn zeta.
  destruct (proxy_chat_forwarded E req w sid body query Hsid Hne Hb Hq)
    as [[detail Hrun]|(result & content & _ & Hrun)];
    rewrite Hrun in *; cbn [fst snd] in *; [|discriminate].
  assert (Hraw : redis (do_rpush (history_key sid)
                          (json_dumps (entry "user" query)) w)
                 !! history_key sid =
                 Some {| Redis.items := [json_dumps (entry "user" query)];
                         Redis.expires_at := None |}).
  { unfold do_rpush, on_redis, Redis.rpush. simpl. rewrite Hfresh.
    apply lookup_insert_eq. }
  split.
  - unfold Redis.ttl, Redis.live. simpl in *. rewrite Hraw. reflexivity.
  - intros dt. unfold transcript, Redis.lrange, Redis.live. simpl in *.
    rewrite Hraw. simpl. reflexivity.
Qed.

(** X11. After a [/chat] call that returned, the whole transcript of the
    session, old entries included, stays readable for 3600 seconds and is
    gone from then on. *)
Theorem transcript_lives_3600_seconds_after_success
        (req : request) (w : world) (sid : string) (result : json) :
  x_session_id req = Some sid ->
  fst (proxy_chat E req w) = Ok result ->
  let w' := snd (proxy_chat E req w) in
  (exists user assistant,
     transcript w' (history_key sid) =
       transcript w (history_key sid) ++ [user; assistant]) /\
  forall dt,
    (0 <= dt < 3600 ->
     transcript (elapse dt w') (history_key sid) =
       transcript w' (history_key sid)) /\
    (3600 <= dt -> transcript (elapse dt w') (history_key sid) = []).
Proof.
  intros Hsid Hok. cbn zeta.
  pose proof (proxy_chat_outcome E req w) as Ho.
  destruct (proxy_chat E req w) as [r w']. cbn [fst snd] in *. subst r.
  inversion Ho as
    [ | | | | | |
    | sid' body query text result' content Hsid' Hne Hb Hq Hu Hj Hc Hres Hw ].
  assert (sid' = sid) by congruence. subst. split.
  - eexists _, _. rewrite transcript_expire_rpush by lia.
    rewrite transcript_emit, transcript_do_rpush, <- app_assoc. reflexivity.
  - intros dt. rewrite transcript_elapse_expire_rpush by lia.
    rewrite transcript_expire_rpush by lia.
    split; intros Hdt.
    + replace (3600 <=? dt) with false by (symmetry; apply Z.leb_gt; lia).
      reflexivity.
    + replace (3600 <=? dt) with true by (symmetry; apply Z.leb_le; lia).
      reflexivity.
Qed.

(** X12. Clearing one session leaves every other session alone: its store
    entry is untouched and its history reads as before. *)
Theorem clear_leaves_other_sessions_alone
        (session_id other : string) (w : world) :
  session_id <> other ->
  redis (snd (clear_session_history session_id w)) !! history_key other =
    redis w !! history_key other /\
  fst (get_session_history other (snd (clear_session_history session_id w))) =
    fst (get_session_history other w).
Proof.
  intros Hne.
  assert (Hkey : history_key session_id <> history_key other).
  { intros Heq. apply history_key_inj in Heq. contradiction. }
  assert (Hraw : redis (snd (clear_session_history session_id w))
                 !! history_key other = redis w !! history_key other).
  { unfold clear_session_history, bind, redis_client_delete. cbn [snd ret].
    apply redis_do_delete_ne. exact Hkey. }
  split; [exact Hraw|].
  apply get_session_history_same. apply transcript_ext; [exact Hraw|].
  reflexivity.
Qed.

(** X13. [/chat] only ever appends: whatever the request and the outcome,
    every key shows afterwards what it showed before, followed by at most two
    new items.  No entry is removed, changed or reordered. *)
Theorem chat_only_appends (req : request) (w : world) (key : string) :
  exists more,
    transcript (snd (proxy_chat E req w)) key = transcript w key ++ more /\
    (length more <= 2)%nat.
Proof.
  assert (Hcase : (exists sid, x_session_id req = Some sid /\
                               history_key sid = key) \/
                  (forall sid, x_session_id req = Some sid ->
                               history_key sid <> key)).
  { destruct (x_session_id req) as [sid|]; [|right; discriminate].
    destruct (decide (history_key sid = key)) as [Heq|Hne]; [left; eauto|].
    right. intros sid' Hs. inversion Hs. subst. exact Hne. }
  destruct Hcase as [(sid & Hsid & <-)|Hno].
  2:{ exists []. rewrite app_nil_r. split; [|simpl; lia].
      destruct (proxy_chat_frame E req w key Hno) as [Hraw Hnow].
      apply transcript_ext; assumption. }
  pose proof (proxy_chat_outcome E req w) as Ho.
  destruct (proxy_chat E req w) as [r w']. cbn [fst snd] in *.
  destruct Ho as
    [ Ht
    | sid' msg Hsid' Hne Hb
    | sid' body e Hsid' Hne Hb Hq
    | sid' body query description Hsid' Hne Hb Hq Hu
    | sid' body query status_code text Hsid' Hne Hb Hq Hu Hs
    | sid' body query text msg Hsid' Hne Hb Hq Hu Hj
    | sid' body query text result e Hsid' Hne Hb Hq Hu Hj Hc
    | sid' body query text result content Hsid' Hne Hb Hq Hu Hj Hc ].
  1-3: exists []; rewrite app_nil_r; split; [reflexivity|simpl; lia].
  all: assert (sid' = sid) by congruence; subst sid'.
  1-4: exists [json_dumps (entry "user" query)]; split; [|simpl; lia];
       rewrite transcript_emit; apply transcript_do_rpush.
  exists [json_dumps (entry "user" query);
          json_dumps (entry "assistant" content)].
  split; [|simpl; lia].
  rewrite transcript_expire_rpush by lia.
  rewrite transcript_emit, transcript_do_rpush, <- app_assoc. reflexivity.
Qed.

End MoreProperties.

(** ** The further properties on concrete requests *)

(** X1 on a body that is not JSON. *)
Lemma malformed_body_fails_before_storing_witness :
  let E := Scenario.service (Replied 200 Scenario.hi_there) in
  @json_loads RefJson.lib (body_text MoreScenario.not_json) =
    inl "Expecting value" /\
  http_status
    (fst (@proxy_chat RefJson.lib E MoreScenario.not_json Scenario.used))
    = 500 /\
  snd (@proxy_chat RefJson.lib E MoreScenario.not_json Scenario.used) =
    Scenario.used.
Proof.
  cbn zeta. split; [vm_compute; reflexivity|].
  pose proof (@malformed_body_fails_before_storing RefJson.lib
                (Scenario.service (Replied 200 Scenario.hi_there))
                MoreScenario.not_json Scenario.used "S"
                eq_refl ltac:(discriminate)
                (or_introl
                   (ex_intro
                      (fun msg =>
                         @json_loads RefJson.lib
                           (body_text MoreScenario.not_json) = inl msg)
                      "Expecting value" ltac:(vm_compute; reflexivity))))
    as (Hs & _ & Hw).
  split; [exact Hs|exact Hw].
Defined.

(** X2 on a service that cannot be reached. *)
Lemma wellformed_chat_calls_upstream_once_witness :
  let E := Scenario.service (Failed "timed out") in
  let run := @proxy_chat RefJson.lib E (Scenario.chat (Some "S"))
               Scenario.fresh in
  @json_loads RefJson.lib Scenario.hello = inr (JDict [("query", JStr "hello")]) /\
  exists rest,
    log (snd run) =
      [EvRpush "chat_history:S" Scenario.user_hello;
       EvPost {| url := "http://ml.example/generate";
                 payload := JDict [("query", JStr "hello");
                                   ("session_id", JStr "S")];
                 authorization := "Bearer secret";
                 timeout := 60 |}] ++ rest /\
    forall o, ~ In (EvPost o) rest.
Proof.
  cbn zeta. split; [vm_compute; reflexivity|].
  exact (@wellformed_chat_calls_upstream_once RefJson.lib
           (Scenario.service (Failed "timed out"))
           (Scenario.chat (Some "S")) Scenario.fresh "S"
           (JDict [("query", JStr "hello")]) (JStr "hello")
           eq_refl ltac:(discriminate) ltac:(vm_compute; reflexivity)
           eq_refl).
Defined.

(** X3 on the body [{}]. *)
Lemma missing_query_is_the_empty_string_witness :
  let E := Scenario.service (Replied 200 Scenario.hi_there) in
  let run := @proxy_chat RefJson.lib E MoreScenario.no_query Scenario.fresh in
  @json_loads RefJson.lib (body_text MoreScenario.no_query) = inr (JDict []) /\
  http_status (fst run) <> 400 /\
  exists o rest,
    payload o = JDict [("query", JStr ""); ("session_id", JStr "S")] /\
    log (snd run) =
      [EvRpush "chat_history:S"
         (RefJson.dumps (entry "user" (JStr ""))); EvPost o] ++ rest.
Proof.
  cbn zeta. split; [vm_compute; reflexivity|].
  destruct (@missing_query_is_the_empty_string RefJson.lib
              (Scenario.service (Replied 200 Scenario.hi_there))
              MoreScenario.no_query Scenario.fresh "S" []
              eq_refl ltac:(discriminate) ltac:(vm_compute; reflexivity)
              eq_refl)
    as (o & rest & Hp & Hl & Hs).
  split; [exact Hs|]. exists o, rest. split; [exact Hp|exact Hl].
Defined.

(** X4: a turn on session [T] does not change the history of session [S]. *)
Lemma chat_leaves_other_sessions_alone_witness :
  let E := Scenario.service (Replied 200 Scenario.hi_there) in
  let run := @proxy_chat RefJson.lib E (Scenario.chat (Some "T"))
               Scenario.used in
  x_session_id (Scenario.chat (Some "T")) <> Some "S" /\
  fst (@get_session_history RefJson.lib "S" (snd run)) =
    fst (@get_session_history RefJson.lib "S" Scenario.used).
Proof.
  cbn zeta. split; [discriminate|].
  exact (proj2 (@chat_leaves_other_sessions_alone RefJson.lib
                  (Scenario.service (Replied 200 Scenario.hi_there))
                  (Scenario.chat (Some "T")) Scenario.used "S"
                  ltac:(discriminate))).
Defined.

(** X5 on a service that answers 200 with a JSON list. *)
Lemma reply_not_object_is_500_witness :
  let E := Scenario.service (Replied 200 "[1, 2]") in
  let run := @proxy_chat RefJson.lib E (Scenario.chat (Some "S"))
               Scenario.used in
  @json_loads RefJson.lib "[1, 2]" = inr (JList [JInt 1; JInt 2]) /\
  fst run =
    Raise (HTTPException 500
             ("Error communicating with ML service: " +:+
              "'list' object has no attribute 'get'")) /\
  transcript (snd run) "chat_history:S" =
    transcript Scenario.used "chat_history:S" ++ [Scenario.user_hello].
Proof.
  cbn zeta. split; [vm_compute; reflexivity|].
  pose proof (@reply_not_object_is_500 RefJson.lib
                (Scenario.service (Replied 200 "[1, 2]"))
                (Scenario.chat (Some "S")) Scenario.used "S"
                (JDict [("query", JStr "hello")]) (JStr "hello")
                "[1, 2]" (JList [JInt 1; JInt 2])
                eq_refl ltac:(discriminate) ltac:(vm_compute; reflexivity)
                eq_refl eq_refl ltac:(vm_compute; reflexivity)
                ltac:(discriminate))
    as (Hr & _ & Ht & _).
  split; [exact Hr|exact Ht].
Defined.

(** X7 on the stored turn of session [S]. *)
Lemma history_decodes_the_transcript_witness :
  transcript Scenario.used (history_key "S") =
    map RefJson.dumps MoreScenario.first_turn /\
  fst (@get_session_history RefJson.lib "S" Scenario.used) =
    Ok (JDict [("session_id", JStr "S");
               ("history", JList MoreScenario.first_turn)]).
Proof.
  split; [vm_compute; reflexivity|].
  refine (@history_decodes_the_transcript RefJson.lib "S" Scenario.used
            MoreScenario.first_turn ltac:(vm_compute; reflexivity) _).
  intros v [<-|[<-|[]]]; vm_compute; reflexivity.
Defined.

(** X8: a second turn on session [S], then its history. *)
Lemma history_after_successful_chat_witness :
  let E := Scenario.service (Replied 200 Scenario.hi_there) in
  let run := @proxy_chat RefJson.lib E (Scenario.chat (Some "S"))
               Scenario.used in
  fst run = Ok (JDict [("response", JStr "hi there")]) /\
  fst (@get_session_history RefJson.lib "S" (snd run)) =
    Ok (JDict [("session_id", JStr "S");
               ("history",
                JList (MoreScenario.first_turn ++
                       MoreScenario.first_turn))]).
Proof.
  cbn zeta. split; [vm_compute; reflexivity|].
  refine (@history_after_successful_chat RefJson.lib
            (Scenario.service (Replied 200 Scenario.hi_there))
            (Scenario.chat (Some "S")) Scenario.used "S"
            (JDict [("query", JStr "hello")]) (JStr "hello")
            (JDict [("response", JStr "hi there")]) (JStr "hi there")
            MoreScenario.first_turn
            eq_refl ltac:(vm_compute; reflexivity) eq_refl
            ltac:(vm_compute; reflexivity) eq_refl
            ltac:(vm_compute; reflexivity) _).
  intros v [<-|[<-|[<-|[<-|[]]]]]; vm_compute; reflexivity.
Defined.

(** X9 on a store whose second item is not JSON. *)
Lemma history_with_undecodable_item_is_500_witness :
  transcript MoreScenario.damaged (history_key "S") =
    [Scenario.user_hello] ++ "oops" :: [] /\
  @json_loads RefJson.lib "oops" = inl "Expecting value" /\
  http_status (fst (@get_session_history RefJson.lib "S"
                      MoreScenario.damaged)) = 500.
Proof.
  split; [vm_compute; reflexivity|]. split; [vm_compute; reflexivity|].
  refine (proj1 (proj2
    (@history_with_undecodable_item_is_500 RefJson.lib "S"
       MoreScenario.damaged [Scenario.user_hello] "oops" "Expecting value" []
       ltac:(vm_compute; reflexivity) _ ltac:(vm_compute; reflexivity)))).
  intros item [<-|[]]. eexists. vm_compute. reflexivity.
Defined.

(** X10 on a first turn whose upstream cannot be reached. *)
Lemma failed_first_turn_never_expires_witness :
  let E := Scenario.service (Failed "timed out") in
  let run := @proxy_chat RefJson.lib E (Scenario.chat (Some "S"))
               Scenario.fresh in
  Redis.live (now Scenario.fresh) (redis Scenario.fresh) (history_key "S")
    = None /\
  http_status (fst run) = 500 /\
  forall dt, transcript (elapse dt (snd run)) (history_key "S") =
             [Scenario.user_hello].
Proof.
  cbn zeta. split; [reflexivity|]. split; [vm_compute; reflexivity|].
  exact (proj2
    (@failed_first_turn_never_expires RefJson.lib
       (Scenario.service (Failed "timed out"))
       (Scenario.chat (Some "S")) Scenario.fresh "S"
       (JDict [("query", JStr "hello")]) (JStr "hello")
       (HTTPException 500
          ("Error communicating with ML service: " +:+ "timed out"))
       eq_refl ltac:(discriminate) ltac:(vm_compute; reflexivity)
       eq_refl ltac:(vm_compute; reflexivity) eq_refl)).
Defined.

(** X11: one second before the hour the turn is there, on the hour it is
    gone. *)
Lemma transcript_lives_3600_seconds_after_success_witness :
  let E := Scenario.service (Replied 200 Scenario.hi_there) in
  let run := @proxy_chat RefJson.lib E (Scenario.chat (Some "S"))
               Scenario.fresh in
  fst run = Ok (JDict [("response", JStr "hi there")]) /\
  transcript (elapse 3599 (snd run)) (history_key "S") =
    transcript (snd run) (history_key "S") /\
  transcript (elapse 3600 (snd run)) (history_key "S") = [].
Proof.
  cbn zeta. split; [vm_compute; reflexivity|].
  pose proof (@transcript_lives_3600_seconds_after_success RefJson.lib
                (Scenario.service (Replied 200 Scenario.hi_there))
                (Scenario.chat (Some "S")) Scenario.fresh "S"
                (JDict [("response", JStr "hi there")])
                eq_refl ltac:(vm_compute; reflexivity))
    as [_ Hdt].
  split.
  - apply (proj1 (Hdt 3599)). lia.
  - apply (proj2 (Hdt 3600)). lia.
Defined.

(** X12: clearing session [T] does not change the history of session [S]. *)
Lemma clear_leaves_other_sessions_alone_witness :
  "T" <> "S" /\
  fst (@get_session_history RefJson.lib "S"
         (snd (clear_session_history "T" Scenario.used))) =
  fst (@get_session_history RefJson.lib "S" Scenario.used).
Proof.
  split; [discriminate|].
  exact (proj2 (@clear_leaves_other_sessions_alone RefJson.lib "T" "S"
                  Scenario.used ltac:(discriminate))).
Defined.
